(** * Quest rewards and leaderboard ([app/quests/helpers.py])

    A shallow embedding of the referral cascade ([record_award_helper]),
    of [process_win] and of [generate_leaderboard], with the properties the
    specification states about them.

    Conventions of the embedding:
    - Python [int] is [Z]; the point values ([Quest.value],
      [QuestPointAward.value]) are exact rationals [Q], so [/] is exact
      division and [+] exact addition;
    - database tables are lists of records, in creation order;
    - a Python list that is reachable through two names lives in an object
      store ([Heap]) and the names hold its address;
    - a raised exception is the [Raised] outcome, carrying the store as it
      was when the exception left the function. *)

From Stdlib Require Import ZArith QArith Qround Qpower Qabs Lia Lqa Permutation Sorted.
From stdpp Require Import base option list strings gmap.
From Equations Require Import Equations.

Local Open Scope Z_scope.

(* ===================================================================== *)
(** ** Python primitives *)
(* ===================================================================== *)

Module Py.

(** [l[:n]]: a negative bound counts from the end of the list. *)
Definition slice_to {A} (n : Z) (l : list A) : list A :=
  if 0 <=? n then take (Z.to_nat n) l
  else take (Z.to_nat (Z.of_nat (length l) + n)) l.

(** [l[n:]] for a bound that is not negative. *)
Definition slice_from {A} (n : nat) (l : list A) : list A := drop n l.

(** A number as [display_pts] holds it: an [int] or a [float]. *)
Inductive num : Type :=
| Int (z : Z)
| Float (q : Q).

(** [x % 1] on a float: the fractional part, in [0, 1). *)
Definition mod1 (x : Q) : Q := (x - inject_Z (Qfloor x))%Q.

(** [int(x)]: truncation towards zero. *)
Definition int (x : Q) : Z := Z.quot (Qnum x) (Zpos (Qden x)).

(** Rounding to the nearest integer, a tie going to the even one. *)
Definition round_half_even (x : Q) : Z :=
  let f := Qfloor x in
  match Qcompare (x - inject_Z f) (1 # 2) with
  | Lt => f
  | Gt => f + 1
  | Eq => if Z.even f then f else f + 1
  end.

(** [round(x, ndigits)] for [ndigits >= 0]. *)
Definition round (x : Q) (ndigits : nat) : Q :=
  let scale := inject_Z (10 ^ Z.of_nat ndigits) in
  (inject_Z (round_half_even (x * scale)) / scale)%Q.

(** A [dict] with string keys, in insertion order. *)
Definition dict (V : Type) : Type := list (string * V).

Fixpoint contains {V} (d : dict V) (key : string) : bool :=
  match d with
  | [] => false
  | (k, _) :: d' => if String.eqb k key then true else contains d' key
  end.

Fixpoint get {V} (d : dict V) (key : string) : option V :=
  match d with
  | [] => None
  | (k, v) :: d' => if String.eqb k key then Some v else get d' key
  end.

(** [d[key] = v]: an existing key keeps its place, a new one goes last. *)
Fixpoint set {V} (d : dict V) (key : string) (v : V) : dict V :=
  match d with
  | [] => [(key, v)]
  | (k, w) :: d' =>
      if String.eqb k key then (k, v) :: d' else (k, w) :: set d' key v
  end.

(** [sorted(items, key=lambda x: x[1], reverse=True)]: descending by the
    second component, items with equal keys staying in their input order
    (the sort is stable, also with [reverse=True]). *)
Fixpoint insert_desc {K} (x : K * Q) (l : list (K * Q)) : list (K * Q) :=
  match l with
  | [] => [x]
  | y :: l' =>
      if Qle_bool (snd y) (snd x) then x :: y :: l' else y :: insert_desc x l'
  end.

Definition sorted_desc {K} (items : list (K * Q)) : list (K * Q) :=
  foldr insert_desc [] items.

(** [d.keys()] *)
Definition keys {V} (d : dict V) : list string := map fst d.

(** [a] may stand before [b] in a list that descends by the second
    component. *)
Definition desc {K} (a b : K * Q) : Prop := (snd b <= snd a)%Q.

End Py.

(* ===================================================================== *)
(** ** Data model *)
(* ===================================================================== *)

(** [kudos.models.Token], as far as the module reads it. *)
Record Token : Type := mkToken {
  token_pk : Z;
  img_url : string;
  humanized_name : string
}.

(** [dashboard.models.Profile]. [referrer] is the foreign key to another
    profile ([None] when there is none), [user] the linked account. *)
Record Profile : Type := mkProfile {
  pk : Z;
  handle : string;
  ref_code : string;
  user : option Z;
  referrer : option Z
}.

(** [quests.models.Quest]. [kudos_reward] is [None] for a quest without
    reward token. *)
Record Quest : Type := mkQuest {
  quest_pk : Z;
  title : string;
  value : Q;
  kudos_reward : option Token;
  url : string;
  enemy_img_url : string
}.

Record QuestAttempt : Type := mkQuestAttempt {
  qa_pk : Z;
  quest : Quest;
  qa_profile : Profile;
  success : bool;
  state : Z
}.

Record QuestPointAward : Type := mkQuestPointAward {
  questattempt : QuestAttempt;
  qpa_profile : Profile;
  qpa_value : Q
}.

(** [kudos.models.BulkTransferCoupon]; [metadata_recipient] is
    [metadata['recipient']]. [token] holds what [create] was given, which is
    [quest.kudos_reward] as it is, [None] included. *)
Record BulkTransferCoupon : Type := mkBulkTransferCoupon {
  token : option Token;
  tag : string;
  num_uses_remaining : Z;
  num_uses_total : Z;
  current_uses : Z;
  secret : Z;
  comments_to_put_in_kudos_transfer : string;
  sender_profile : Profile;
  metadata_recipient : Z
}.

(** The arguments of one [send_notification_to_user] call. *)
Record Notification : Type := mkNotification {
  from_user : option Z;
  to_user : option Z;
  cta_url : string;
  cta_text : string;
  msg_html : string
}.

(** [dashboard.models.Activity] with its [metadata]. *)
Record Activity : Type := mkActivity {
  created_on : Z;
  activity_type : string;
  activity_profile : Profile;
  quest_url : string;
  quest_title : string;
  quest_reward : option string
}.

(** [request.user] with its profile. *)
Record Request : Type := mkRequest {
  request_user : Z;
  request_profile : Profile
}.

(** The tables the module writes, each in creation order, the attempts as
    saved, the lines logged and the number of random draws made so far. *)
Record World : Type := mkWorld {
  point_awards : list QuestPointAward;
  coupons : list BulkTransferCoupon;
  notifications : list Notification;
  activities : list Activity;
  attempts : list QuestAttempt;
  logged : list string;
  draws : nat
}.

(** The exceptions: the one of a failed delivery, and the
    [AttributeError] of an attribute read on [None]. *)
Inductive exn : Type :=
| NotificationError
| AttributeError.

(** How a call ends: it returns a value, or an exception leaves it. *)
Inductive outcome (A : Type) : Type :=
| Returned (a : A) (w : World)
| Raised (e : exn) (w : World).
Arguments Returned {A} a w.
Arguments Raised {A} e w.

Definition world_of {A} (o : outcome A) : World :=
  match o with
  | Returned _ w => w
  | Raised _ w => w
  end.

Definition has_raised {A} (o : outcome A) : bool :=
  match o with
  | Returned _ _ => false
  | Raised _ _ => true
  end.

(* ===================================================================== *)
(** ** The leaderboard *)
(* ===================================================================== *)

(** One row of the leaderboard:
    [[ele[0], display_pts, kudii, reward_kudos_url, counter]]. *)
Record Entry : Type := mkEntry {
  e_handle : string;
  e_display_pts : Py.num;
  e_kudii : list (string * string);
  e_reward_kudos_url : option Token;
  e_counter : Z
}.

(** The object store of the list objects of [generate_leaderboard]: an
    address is an index in the store. Two variables that hold the same
    address name the same list. *)
Module Heap.

Abbreviation ref := nat.
Abbreviation t := (list (list Entry)).

(** A computation on the store; [None] is an [IndexError]. *)
Definition M (R : Type) : Type := t -> option (R * t).

Definition ret {R} (x : R) : M R := fun h => Some (x, h).

Definition bind {R S} (c : M R) (k : R -> M S) : M S :=
  fun h => match c h with
           | Some (x, h') => k x h'
           | None => None
           end.

(** A list display or a slice makes a new object. *)
Definition new (l : list Entry) : M ref :=
  fun h => Some (length h, h ++ [l]).

Definition read (r : ref) : M (list Entry) :=
  fun h => match h !! r with
           | Some l => Some (l, h)
           | None => None
           end.

(** [r.append(x)] *)
Definition append (r : ref) (x : Entry) : M unit :=
  fun h => match h !! r with
           | Some l => Some (tt, <[r := l ++ [x]]> h)
           | None => None
           end.

(** [r[i]] *)
Definition getitem (r : ref) (i : nat) : M Entry :=
  fun h => match h !! r with
           | Some l => match l !! i with
                       | Some x => Some (x, h)
                       | None => None
                       end
           | None => None
           end.

(** [r[i] = x] *)
Definition setitem (r : ref) (i : nat) (x : Entry) : M unit :=
  fun h => match h !! r with
           | Some l =>
               if decide (i < length l)%nat
               then Some (tt, <[r := <[i := x]> l]> h)
               else None
           | None => None
           end.

(** [r[:n]] *)
Definition slice_to (r : ref) (n : Z) : M ref :=
  bind (read r) (fun l => new (Py.slice_to n l)).

Definition run {R} (c : M R) : option R :=
  match c [] with
  | Some (x, _) => Some x
  | None => None
  end.

End Heap.

Notation "x <- c1 ;; c2" := (Heap.bind c1 (fun x => c2))
  (at level 100, c1 at next level, right associativity).
Notation "c1 ;;; c2" := (Heap.bind c1 (fun _ => c2))
  (at level 100, right associativity).

Section Leaderboard.

(** [Token.objects.get(pk=...)] for the hard-coded reward tokens, which the
    token table is taken to hold. *)
Variable Token_get : Z -> Token.

(** The tokens of the redemptions tagged ['quest'] of a handle, newest
    first: the query [btr]. *)
Variable quest_redemptions : string -> list Token.

(** [list(set(...))]: the order in which a set of pairs is listed. *)
Variable list_of_set : list (string * string) -> list (string * string).

Definition kudos_to_show_per_leaderboard_entry : nat := 5.

(** The [reward_kudos] table and its [.get(counter)]. *)
Definition reward_kudos (counter : Z) : option Z :=
  if counter =? 1 then Some 621
  else if counter =? 2 then Some 618
  else if counter =? 3 then Some 622
  else None.

(** The first loop: totals per handle, in a dict. *)
Definition add_award (leaderboard : Py.dict Q) (qpa : QuestPointAward) : Py.dict Q :=
  let key := handle (qpa_profile qpa) in
  let leaderboard :=
    if negb (Py.contains leaderboard key) then Py.set leaderboard key 0%Q
    else leaderboard in
  match Py.get leaderboard key with
  | Some total => Py.set leaderboard key (total + qpa_value qpa)%Q
  | None => leaderboard
  end.

Definition totals (awards : list QuestPointAward) : Py.dict Q :=
  foldl add_award [] awards.

Definition display_pts (v : Q) : Py.num :=
  if Qeq_bool (Py.mod1 v) 0 then Py.Int (Py.int v) else Py.Float (Py.round v 1).

(** The body of the second loop, for the item [ele] at [counter]. *)
Definition this_ele (counter : Z) (ele : string * Q) : Entry :=
  let btr := quest_redemptions (fst ele) in
  let kudii :=
    take kudos_to_show_per_leaderboard_entry
      (list_of_set (map (fun t => (img_url t, humanized_name t)) btr)) in
  let reward_kudos_pk := reward_kudos counter in
  let reward_kudos_url :=
    match reward_kudos_pk with
    | Some p => Some (Token_get p)
    | None => None
    end in
  mkEntry (fst ele) (display_pts (snd ele)) kudii reward_kudos_url counter.

(** The second loop, appending to the list at [return_leaderboard]. *)
Fixpoint assemble (return_leaderboard : Heap.ref) (counter : Z)
    (leaderboard : list (string * Q)) : Heap.M unit :=
  match leaderboard with
  | [] => Heap.ret tt
  | ele :: rest =>
      let counter := counter + 1 in
      Heap.append return_leaderboard (this_ele counter ele) ;;;
      assemble return_leaderboard counter rest
  end.

Definition generate_leaderboard_M (awards : list QuestPointAward)
    (max_entries : Z) : Heap.M (list Entry * list Entry) :=
  let leaderboard := totals awards in
  let leaderboard := Py.sorted_desc leaderboard in
  return_leaderboard <- Heap.new [] ;;
  assemble return_leaderboard 0 leaderboard ;;;
  (* return values *)
  let leaderboard_hero := return_leaderboard in
  leaderboard_hero <-
    (if decide (length leaderboard < 3)%nat then Heap.new []
     else
       let leaderboard := Py.slice_from 3 leaderboard in
       tmp <- Heap.getitem leaderboard_hero 0 ;;
       second <- Heap.getitem leaderboard_hero 1 ;;
       Heap.setitem leaderboard_hero 0 second ;;;
       Heap.setitem leaderboard_hero 1 tmp ;;;
       Heap.slice_to leaderboard_hero 3) ;;
  return_leaderboard <- Heap.slice_to return_leaderboard max_entries ;;
  full <- Heap.read return_leaderboard ;;
  hero <- Heap.read leaderboard_hero ;;
  Heap.ret (full, hero).

(** [generate_leaderboard(max_entries)] over the table of point awards;
    [None] would be an [IndexError]. *)
Definition generate_leaderboard (awards : list QuestPointAward)
    (max_entries : Z) : option (list Entry * list Entry) :=
  Heap.run (generate_leaderboard_M awards max_entries).

(** *** What the loops compute, as plain lists *)

(** The sorted totals: the items the second loop walks. *)
Definition ranking (awards : list QuestPointAward) : list (string * Q) :=
  Py.sorted_desc (totals awards).

(** The rows the second loop appends when it starts after [counter]. *)
Fixpoint rows (counter : Z) (leaderboard : list (string * Q)) : list Entry :=
  match leaderboard with
  | [] => []
  | ele :: rest => this_ele (counter + 1) ele :: rows (counter + 1) rest
  end.

(** The handles that have a point award, each once. *)
Definition contributors (awards : list QuestPointAward) : list string :=
  remove_dups (map (fun qpa => handle (qpa_profile qpa)) awards).

(** The sum of the awards of a handle, added up in table order from 0. *)
Definition total_for (h : string) (awards : list QuestPointAward) : Q :=
  foldl Qplus 0%Q
    (map qpa_value (filter (fun qpa => handle (qpa_profile qpa) = h) awards)).

(** The 1-based place of a handle in the sorted totals. *)
Definition rank (awards : list QuestPointAward) (h : string) : option Z :=
  (fun found => Z.of_nat (fst found) + 1)
    <$> list_find (fun ele => fst ele = h) (ranking awards).

(** The pair [generate_leaderboard] returns, from the rows of the second
    loop. The swap is made in the list that both [return_leaderboard] and
    [leaderboard_hero] name, so it shows in the full list too. *)
Definition returned_lists (max_entries : Z) (ranked : list Entry)
    : list Entry * list Entry :=
  match ranked with
  | r1 :: r2 :: r3 :: rest =>
      (Py.slice_to max_entries (r2 :: r1 :: r3 :: rest), [r2; r1; r3])
  | _ => (Py.slice_to max_entries ranked, [])
  end.

End Leaderboard.

(* ===================================================================== *)
(** ** The referral cascade and the win *)
(* ===================================================================== *)

Definition max_ref_depth : Z := 4.

Section Rewards.

(** [settings.DEBUG] and [settings.BASE_URL]. *)
Variable DEBUG : bool.
Variable BASE_URL : string.

(** The table of profiles, which this module only reads: the profile of
    a primary key. A referral cycle is a table like any other. *)
Variable profiles : gmap Z Profile.

(** [get_profile('gitcoinbot')]. *)
Variable gitcoinbot : Profile.

(** [random.randint(10**19, 10**20)]: the value of the n-th draw. *)
Variable randint : nat -> Z.

(** [btc.url], a property of the coupon model. *)
Variable coupon_url : BulkTransferCoupon -> string.

(** Whether [send_notification_to_user] raises on these arguments, and
    whether [Activity.objects.create] does. *)
Variable delivery_fails : Notification -> bool.
Variable activity_fails : Activity -> bool.

(** [timezone.now()], [quest.is_beaten(user)] and the text of a float in
    an f-string. *)
Variable now : World -> Z.
Variable is_beaten : World -> Quest -> Z -> bool.
Variable str_of_float : Q -> string.

(** [profile.referrer]: the profile the foreign key points to. *)
Definition referrer_of (profile : Profile) : option Profile :=
  match referrer profile with
  | Some r => profiles !! r
  | None => None
  end.

Definition record_quest_activity (quest : Quest) (associated_profile : Profile)
    (event_name : string) (override_created : option Z) (w : World) : World :=
  let kwargs :=
    mkActivity
      (match override_created with Some t => t | None => now w end)
      event_name associated_profile (url quest) (title quest)
      (if String.eqb (enemy_img_url quest) "" then None
       else Some (enemy_img_url quest)) in
  if activity_fails kwargs
  then mkWorld (point_awards w) (coupons w) (notifications w) (activities w)
         (attempts w) (logged w ++ ["Activity.objects.create"%string]) (draws w)
  else mkWorld (point_awards w) (coupons w) (notifications w)
         (activities w ++ [kwargs]) (attempts w) (logged w) (draws w).

(** [QuestPointAward.objects.create(...)] *)
Definition create_point_award (qpa : QuestPointAward) (w : World) : World :=
  mkWorld (point_awards w ++ [qpa]) (coupons w) (notifications w)
    (activities w) (attempts w) (logged w) (draws w).

(** The coupon both [record_award_helper] and [process_win] build, with
    the next random draw as its secret. *)
Definition new_coupon (quest : Quest) (sender : Profile) (recipient : Z)
    (w : World) : BulkTransferCoupon :=
  mkBulkTransferCoupon (kudos_reward quest) "quest" 1 1 0 (randint (draws w))
    ("Congrats on beating the '" +:+ title quest +:+ "' Gitcoin Quest")
    sender recipient.

(** [BulkTransferCoupon.objects.create(...)] *)
Definition create_coupon (btc : BulkTransferCoupon) (w : World) : World :=
  mkWorld (point_awards w) (coupons w ++ [btc]) (notifications w)
    (activities w) (attempts w) (logged w) (S (draws w)).

(** [send_notification_to_user(...)] *)
Definition send_notification_to_user (n : Notification) (w : World) : outcome unit :=
  if delivery_fails n then Raised NotificationError w
  else Returned tt
         (mkWorld (point_awards w) (coupons w) (notifications w ++ [n])
            (activities w) (attempts w) (logged w) (draws w)).

(** The value of a layer: [qa.quest.value/(2**(layer-1))]. *)
Definition layer_value (qa : QuestAttempt) (layer : Z) : Q :=
  (value (quest qa) / 2 ^ (layer - 1))%Q.

(** The arguments of the notification about the coupon [btc]. *)
Definition kudos_notification (qa : QuestAttempt) (profile : Profile) (val : Q)
    (btc : BulkTransferCoupon) : Notification :=
  let cta_url := coupon_url btc in
  let cta_text := "Redeem Kudos"%string in
  let msg_html :=
    ("@" +:+ handle (qa_profile qa) +:+ " just beat '" +:+ title (quest qa)
     +:+ "'.  You earned " +:+ str_of_float (Py.round val 2)
     +:+ " quest points & a kudos for referring them.")%string in
  mkNotification (user gitcoinbot) (user profile) cta_url cta_text msg_html.

(** The block under [# record kudos], entered when
    [layer > 1 or settings.DEBUG]: the coupon is created, never looked up. *)
Definition record_kudos (qa : QuestAttempt) (profile : Profile) (val : Q)
    (w : World) : outcome unit :=
  let quest := quest qa in
  let btc := new_coupon quest gitcoinbot (pk profile) w in
  let w := create_coupon btc w in
  send_notification_to_user (kudos_notification qa profile val btc) w.

(** What one call does before it recurses: the point award, then the
    kudos when the gate lets it. *)
Definition record_layer (qa : QuestAttempt) (profile : Profile) (layer : Z)
    (w : World) : outcome unit :=
  let val := layer_value qa layer in
  let w := create_point_award (mkQuestPointAward qa profile val) w in
  if decide (layer > 1 \/ DEBUG = true)
  then record_kudos qa profile val w
  else Returned tt w.

Equations? record_award_helper (qa : QuestAttempt) (profile : Profile)
    (layer : Z) (w : World) : outcome unit
    by wf (Z.to_nat (max_ref_depth + 1 - layer)) lt :=
  record_award_helper qa profile layer w with decide (layer > max_ref_depth) => {
    | left _ := Returned tt w
    | right _ with record_layer qa profile layer w => {
        | Raised e w' := Raised e w'
        | Returned _ w' with referrer_of profile => {
            | Some r := record_award_helper qa r (layer + 1) w'
            | None := Returned tt w' } } }.
Proof. unfold max_ref_depth in *. lia. Qed.

(** [BulkTransferCoupon.objects.filter(token=..., tag='quest',
    metadata__recipient=...)] *)
Definition quest_coupons (tok : option Token) (recipient : Z) (w : World)
    : list BulkTransferCoupon :=
  filter (fun c => token_pk <$> token c = token_pk <$> tok
                   /\ tag c = "quest"%string
                   /\ metadata_recipient c = recipient) (coupons w).

(** [qa.save()]: the saved row replaces the one with the same key. *)
Definition save_attempt (qa : QuestAttempt) (w : World) : World :=
  mkWorld (point_awards w) (coupons w) (notifications w) (activities w)
    (filter (fun a => qa_pk a <> qa_pk qa) (attempts w) ++ [qa])
    (logged w) (draws w).

(** [qa.success = True] *)
Definition succeeded (qa : QuestAttempt) : QuestAttempt :=
  mkQuestAttempt (qa_pk qa) (quest qa) (qa_profile qa) true (state qa).

Definition process_win (request : Request) (qa : QuestAttempt) (w : World)
    : outcome string :=
  let quest_ := quest qa in
  let was_already_beaten := is_beaten w quest_ (request_user request) in
  let first_time_beaten := negb was_already_beaten in
  let w := record_quest_activity quest_ (request_profile request) "beat_quest" None w in
  let btcs := quest_coupons (kudos_reward quest_) (pk (request_profile request)) w in
  let '(btc, w) :=
    match btcs with
    | first :: _ => (first, w)
    | [] =>
        let btc := new_coupon quest_ gitcoinbot (pk (request_profile request)) w in
        (btc, create_coupon btc w)
    end in
  (* the f-string reads [quest.kudos_reward.humanized_name] *)
  match kudos_reward quest_ with
  | None => Raised AttributeError w
  | Some reward =>
      let prize_url :=
        (coupon_url btc +:+ "?cb=ref:" +:+ ref_code (request_profile request)
         +:+ "&tweet_url=" +:+ BASE_URL +:+ url quest_
         +:+ "&tweet=I just won a " +:+ humanized_name reward
         +:+ " Kudos by beating the '" +:+ title quest_
         +:+ " Quest' on @gitcoin quests.")%string in
      let qa := succeeded qa in
      let w := save_attempt qa w in
      if first_time_beaten
      then match record_award_helper qa (qa_profile qa) 1 w with
           | Returned _ w => Returned prize_url w
           | Raised e w => Raised e w
           end
      else Returned prize_url w
  end.

(** *** Referral chains and what a cascade should create *)

(** [referral_chain p l]: [l] lists [p], its referrer, the referrer of that
    one and so on, up to a profile without referrer. A chain that runs into
    a cycle has no such list. *)
Inductive referral_chain : Profile -> list Profile -> Prop :=
| chain_end p :
    referrer_of p = None -> referral_chain p [p]
| chain_step p r l :
    referrer_of p = Some r -> referral_chain r l -> referral_chain p (p :: l).

(** One point award for each profile of [chain], the first at [layer]. *)
Fixpoint cascade_awards (qa : QuestAttempt) (chain : list Profile) (layer : Z)
    : list QuestPointAward :=
  match chain with
  | [] => []
  | p :: rest =>
      mkQuestPointAward qa p (layer_value qa layer)
      :: cascade_awards qa rest (layer + 1)
  end.

End Rewards.

(** The sum of the values of some point awards. *)
Definition sum_values (awards : list QuestPointAward) : Q :=
  foldr (fun qpa s => (qpa_value qpa + s)%Q) 0%Q awards.

(* ===================================================================== *)
(** ** Concrete data *)
(* ===================================================================== *)

Module Examples.

Local Open Scope string_scope.

Definition token_of (pk : Z) : Token := mkToken pk "" "".
Definition no_redemptions (_ : string) : list Token := [].
Definition as_listed (pairs : list (string * string)) : list (string * string) := pairs.

Definition kudos_token : Token := mkToken 7 "kudos.png" "Quest Kudos".
Definition kudos : option Token := Some kudos_token.
Definition a_quest (v : Q) : Quest := mkQuest 1 "Demo" v kudos "/quests/1" "".

(** A winner referred by [ref1], who was referred by [ref2]. *)
Definition winner : Profile := mkProfile 1 "winner" "w" (Some 11) (Some 2).
Definition ref1 : Profile := mkProfile 2 "ref1" "r1" (Some 12) (Some 3).
Definition ref2 : Profile := mkProfile 3 "ref2" "r2" (Some 13) None.
Definition loner : Profile := mkProfile 4 "loner" "l" (Some 14) None.
Definition table : gmap Z Profile :=
  <[1 := winner]> (<[2 := ref1]> (<[3 := ref2]> (<[4 := loner]> ∅))).

(** Two profiles that refer each other. *)
Definition ann : Profile := mkProfile 1 "ann" "a" (Some 11) (Some 2).
Definition bob : Profile := mkProfile 2 "bob" "b" (Some 12) (Some 1).
Definition cycle : gmap Z Profile := <[1 := ann]> (<[2 := bob]> ∅).

Definition bot : Profile := mkProfile 99 "gitcoinbot" "" (Some 99) None.
Definition draw (n : nat) : Z := 10 ^ 19 + Z.of_nat n.
Definition url_of (btc : BulkTransferCoupon) : string := "/kudos/redeem/".
Definition str_of (q : Q) : string := "".
Definition delivers (_ : Notification) : bool := false.
Definition never_delivers (_ : Notification) : bool := true.

Definition attempt (v : Q) (p : Profile) : QuestAttempt :=
  mkQuestAttempt 1 (a_quest v) p false 0.

Definition empty_world : World := mkWorld [] [] [] [] [] [] 0.

(** A table that already holds a quest coupon for [ref1]. *)
Definition old_coupon : BulkTransferCoupon :=
  mkBulkTransferCoupon kudos "quest" 1 1 0 5 "" bot (pk ref1).
Definition world_with_coupon : World := mkWorld [] [old_coupon] [] [] [] [] 0.

(** The tables after the first layer of a win of [winner]: their own point
    award, and no kudos at layer 1. *)
Definition world_after_winner : World :=
  create_point_award
    (mkQuestPointAward (attempt 8 winner) winner (layer_value (attempt 8 winner) 1))
    empty_world.

(** The cascade outside debug mode, over [table], with and without working
    delivery, and over [cycle]. *)
Definition cascade := record_award_helper false table bot draw url_of delivers str_of.
Definition cascade_undelivered :=
  record_award_helper false table bot draw url_of never_delivers str_of.
Definition cascade_on_cycle := record_award_helper false cycle bot draw url_of delivers str_of.

(** Point awards of A = 30 (in two awards), B = 20, C = 10 and D = 5. *)
Definition contributor (n : Z) (h : string) : Profile := mkProfile n h "" (Some n) None.
Definition award (n : Z) (h : string) (v : Q) : QuestPointAward :=
  mkQuestPointAward (attempt v (contributor n h)) (contributor n h) v.
Definition board : list QuestPointAward :=
  [award 4 "D" 5; award 1 "A" 10; award 2 "B" 20; award 3 "C" 10; award 1 "A" 20].

Definition leaderboard_of := generate_leaderboard token_of no_redemptions as_listed.

End Examples.

(* ===================================================================== *)
(** ** Queries, the start of a quest and the cached leaderboard *)
(* ===================================================================== *)

Module Orm.

(** [queryset.order_by('-pk').first()]: the row with the greatest key,
    [None] when there is no row. *)
Definition latest_by {A} (key : A -> Z) (rows : list A) : option A :=
  foldl (fun best row =>
           match best with
           | Some b => if key b <? key row then Some row else Some b
           | None => Some row
           end) None rows.

End Orm.

(** [perftools.models.JSONStore], with [data] of any type. *)
Record JSONStore (D : Type) : Type := mkJSONStore {
  js_pk : Z;
  js_view : string;
  js_key : string;
  js_data : D
}.
Arguments mkJSONStore {D} _ _ _ _.
Arguments js_pk {D} _.
Arguments js_view {D} _.
Arguments js_key {D} _.
Arguments js_data {D} _.

(** [get_leaderboard(max_entries)]; [None] is the [AttributeError] of
    [None.data], when no row matches. *)
Definition get_leaderboard {D} (store : list (JSONStore D)) (max_entries : Z)
    : option D :=
  js_data
    <$> Orm.latest_by js_pk
          (filter (fun s => js_view s = "quests"%string
                            /\ js_key s = "leaderboard"%string) store).

(** The dict [get_base_quest_view_params] returns. *)
Record ViewParams : Type := mkViewParams {
  params_quest : Quest;
  hide_col : bool;
  attempt_count : Z;
  success_count : Z;
  body_class : string;
  params_title : string;
  avatar_url : string;
  card_desc : string;
  quest_json : string
}.

Section Quests.

(** [timezone.now()], in microseconds, and whether
    [Activity.objects.create] raises. *)
Variable now : World -> Z.
Variable activity_fails : Activity -> bool.

(** The columns and methods of the models that the records above leave
    out: [QuestAttempt.created_on], [Quest.cooldown_minutes],
    [Quest.description] and [quest.to_json_dict(exclude="questions")]. *)
Variable created_on_of : QuestAttempt -> Z.
Variable cooldown_minutes : Quest -> Z.
Variable description : Quest -> string.
Variable to_json_dict : Quest -> string.

(** The primary key the database gives to the next attempt. *)
Variable new_attempt_pk : World -> Z.

(** [timezone.timedelta(minutes=m)], in microseconds. *)
Definition timedelta_minutes (m : Z) : Z := m * 60000000.

(** [quest.attempts]: the attempts of the quest. *)
Definition quest_attempts (quest_ : Quest) (w : World) : list QuestAttempt :=
  filter (fun a => quest_pk (quest a) = quest_pk quest_) (attempts w).

(** [profile] is [None] for a visitor who is not logged in. *)
Definition get_base_quest_view_params (profile : option Profile) (quest_ : Quest)
    (w : World) : ViewParams :=
  let attempts :=
    match profile with
    | Some p => filter (fun a => pk (qa_profile a) = pk p) (quest_attempts quest_ w)
    | None => []
    end in
  mkViewParams quest_ true
    (Z.of_nat (length attempts) + 1)
    (Z.of_nat (length (filter (fun a => success a = true) attempts)))
    "quest_battle"
    ("Quest: " +:+ title quest_
     +:+ match kudos_reward quest_ with
         | Some reward => " (and win a *" +:+ humanized_name reward +:+ "* Kudos)"
         | None => ""
         end)
    (enemy_img_url quest_) (description quest_) (to_json_dict quest_).

(** [state] is [None] by default; [if state:] is false for [None] and for 0. *)
Definition get_active_attempt_if_any (profile : Profile) (quest_ : Quest)
    (state_ : option Z) (w : World) : option QuestAttempt :=
  let active_attempts :=
    filter (fun a => quest_pk (quest a) = quest_pk quest_
                     /\ pk (qa_profile a) = pk profile
                     /\ success a = false
                     /\ now w - timedelta_minutes (cooldown_minutes quest_)
                        < created_on_of a)
      (attempts w) in
  let active_attempts :=
    match state_ with
    | Some s =>
        if decide (s = 0) then active_attempts
        else filter (fun a => state a = s) active_attempts
    | None => active_attempts
    end in
  Orm.latest_by qa_pk active_attempts.

(** What the filters of [get_active_attempt_if_any] ask of an attempt. *)
Definition is_active_for (profile : Profile) (quest_ : Quest) (state_ : option Z)
    (w : World) (a : QuestAttempt) : Prop :=
  quest_pk (quest a) = quest_pk quest_
  /\ pk (qa_profile a) = pk profile
  /\ success a = false
  /\ now w - timedelta_minutes (cooldown_minutes quest_) < created_on_of a
  /\ match state_ with
     | Some s => s = 0 \/ state a = s
     | None => True
     end.

(** [QuestAttempt.objects.create(...)] *)
Definition create_attempt (qa : QuestAttempt) (w : World) : World :=
  mkWorld (point_awards w) (coupons w) (notifications w) (activities w)
    (attempts w ++ [qa]) (logged w) (draws w).

Definition process_start (request : Request) (quest_ : Quest) (w : World) : World :=
  let w :=
    create_attempt
      (mkQuestAttempt (new_attempt_pk w) quest_ (request_profile request) false 0) w in
  record_quest_activity activity_fails now quest_ (request_profile request)
    "played_quest" None w.

End Quests.

(* ===================================================================== *)
(** ** What a cascade writes, as plain lists *)
(* ===================================================================== *)

Section CascadeRecords.

Variable DEBUG : bool.
Variable profiles : gmap Z Profile.
Variable gitcoinbot : Profile.
Variable randint : nat -> Z.

(** [follows p ps]: [ps] starts at [p] and goes from each profile to its
    referrer. *)
Fixpoint follows (p : Profile) (ps : list Profile) : Prop :=
  match ps with
  | [] => True
  | q :: rest =>
      q = p
      /\ match rest with
         | [] => True
         | r :: _ => referrer_of profiles p = Some r /\ follows r rest
         end
  end.

(** The coupons created for [recipients], one after the other, when
    [drawn] random draws have been made before. *)
Fixpoint issued_coupons (quest_ : Quest) (recipients : list Profile) (drawn : nat)
    : list BulkTransferCoupon :=
  match recipients with
  | [] => []
  | p :: rest =>
      mkBulkTransferCoupon (kudos_reward quest_) "quest" 1 1 0 (randint drawn)
        ("Congrats on beating the '" +:+ title quest_ +:+ "' Gitcoin Quest")
        gitcoinbot (pk p)
      :: issued_coupons quest_ rest (S drawn)
  end.

(** Of the profiles awarded from [layer] on, those that pass the gate
    [layer > 1 or settings.DEBUG]: all but the first one when the first
    layer does not pass. *)
Definition with_kudos (layer : Z) (awarded : list Profile) : list Profile :=
  if decide (layer > 1 \/ DEBUG = true) then awarded else drop 1 awarded.

End CascadeRecords.

(* ===================================================================== *)
(** ** The parts of a win *)
(* ===================================================================== *)

Section WinParts.

Variable BASE_URL : string.
Variable gitcoinbot : Profile.
Variable randint : nat -> Z.
Variable coupon_url : BulkTransferCoupon -> string.
Variable activity_fails : Activity -> bool.
Variable now : World -> Z.

(** The store of [process_win] once the activity is recorded. *)
Definition win_activity (request : Request) (qa : QuestAttempt) (w : World) : World :=
  record_quest_activity activity_fails now (quest qa) (request_profile request)
    "beat_quest" None w.

(** The coupon [btc] of [process_win]: the first one found, or a new one. *)
Definition win_coupon (request : Request) (qa : QuestAttempt) (w : World)
    : BulkTransferCoupon :=
  match quest_coupons (kudos_reward (quest qa)) (pk (request_profile request))
          (win_activity request qa w) with
  | first :: _ => first
  | [] => new_coupon randint (quest qa) gitcoinbot (pk (request_profile request))
            (win_activity request qa w)
  end.

(** The store of [process_win] after [qa.save()], before the cascade. *)
Definition win_saved (request : Request) (qa : QuestAttempt) (w : World) : World :=
  save_attempt (succeeded qa)
    match quest_coupons (kudos_reward (quest qa)) (pk (request_profile request))
            (win_activity request qa w) with
    | _ :: _ => win_activity request qa w
    | [] => create_coupon (win_coupon request qa w) (win_activity request qa w)
    end.

(** The store of [process_win] once the coupon is found or created. *)
Definition win_couponed (request : Request) (qa : QuestAttempt) (w : World) : World :=
  match quest_coupons (kudos_reward (quest qa)) (pk (request_profile request))
          (win_activity request qa w) with
  | _ :: _ => win_activity request qa w
  | [] => create_coupon (win_coupon request qa w) (win_activity request qa w)
  end.

(** The [prize_url] of [process_win] for the coupon [btc] and the reward
    token [reward] of the quest. *)
Definition prize_url_for (request : Request) (qa : QuestAttempt) (reward : Token)
    (btc : BulkTransferCoupon) : string :=
  (coupon_url btc +:+ "?cb=ref:" +:+ ref_code (request_profile request)
   +:+ "&tweet_url=" +:+ BASE_URL +:+ url (quest qa)
   +:+ "&tweet=I just won a " +:+ humanized_name reward
   +:+ " Kudos by beating the '" +:+ title (quest qa)
   +:+ " Quest' on @gitcoin quests.")%string.

End WinParts.

(* ===================================================================== *)
(** ** The calls of a cascade *)
(* ===================================================================== *)

Section CascadeCalls.

Variable DEBUG : bool.
Variable profiles : gmap Z Profile.
Variable gitcoinbot : Profile.
Variable randint : nat -> Z.
Variable coupon_url : BulkTransferCoupon -> string.
Variable delivery_fails : Notification -> bool.
Variable str_of_float : Q -> string.

(** [encloses qa (p, layer, w) (q, k, wk)]: the call
    [record_award_helper(qa, p, layer)] made on the store [w] is, or comes
    through its recursive calls to, the call [record_award_helper(qa, q, k)]
    made on the store [wk]. *)
Inductive encloses (qa : QuestAttempt)
    : Profile * Z * World -> Profile * Z * World -> Prop :=
| encloses_itself call :
    encloses qa call call
| encloses_through p layer w w1 r inner :
    layer <= max_ref_depth ->
    record_layer DEBUG gitcoinbot randint coupon_url delivery_fails str_of_float
      qa p layer w = Returned tt w1 ->
    referrer_of profiles p = Some r ->
    encloses qa (r, layer + 1, w1) inner ->
    encloses qa (p, layer, w) inner.

End CascadeCalls.

(* ===================================================================== *)
(** ** The rank of a handle, from the point awards alone *)
(* ===================================================================== *)

(** The handles with point awards, in the order of their first award. *)
Definition first_awarded (awards : list QuestPointAward) : list string :=
  reverse (remove_dups (reverse (map (fun qpa => handle (qpa_profile qpa)) awards))).

(** The handles of [handles] that stand before [h]. *)
Fixpoint earlier (h : string) (handles : list string) : list string :=
  match handles with
  | [] => []
  | x :: rest => if decide (x = h) then [] else x :: earlier h rest
  end.

(** The place of a handle when the handles are put in descending order of
    the sum of their awards, handles with equal sums in the order of their
    first award: one more than the number of handles with a greater sum or
    with an equal sum and an earlier first award. *)
Definition true_rank (awards : list QuestPointAward) (h : string) : Z :=
  1
  + Z.of_nat (length (filter (fun h' => Qle_bool (total_for h' awards)
                                          (total_for h awards) = false)
                        (first_awarded awards)))
  + Z.of_nat (length (filter (fun h' => Qeq_bool (total_for h' awards)
                                          (total_for h awards) = true)
                        (earlier h (first_awarded awards)))).

Module MoreExamples.

Import Examples.

Definition clock (_ : World) : Z := 1000000000.
Definition activity_ok (_ : Activity) : bool := false.
Definition just_created (_ : QuestAttempt) : Z := 1000000000.
Definition cooldown (_ : Quest) : Z := 5.
Definition next_pk (w : World) : Z := 1 + Z.of_nat (length (attempts w)).
Definition beaten (_ : World) (_ : Quest) (_ : Z) : bool := true.

Definition a_request : Request := mkRequest 11 winner.

Definition failed_attempt : QuestAttempt := mkQuestAttempt 1 (a_quest 8) winner false 0.
Definition world_with_attempt : World := mkWorld [] [] [] [] [failed_attempt] [] 0.

(** A second attempt of the same profile at the same quest. *)
Definition second_attempt : QuestAttempt := mkQuestAttempt 2 (a_quest 8) winner false 0.
Definition world_with_two_attempts : World :=
  mkWorld [] [] [] [] [failed_attempt; second_attempt] [] 0.

(** A quest without reward token, and an attempt at it. *)
Definition bare_quest : Quest :=
  mkQuest 2 "Bare"%string 8 None "/quests/2"%string ""%string.
Definition bare_attempt : QuestAttempt := mkQuestAttempt 3 bare_quest winner false 0.
Definition world_with_bare_attempt : World := mkWorld [] [] [] [] [bare_attempt] [] 0.

(** A win and a start outside debug mode, over [table], for a user who has
    beaten every quest; the query for the active attempt. *)
Definition win :=
  process_win false ""%string table bot draw url_of delivers activity_ok clock
    beaten str_of.
(** A win of a user who has beaten no quest. *)
Definition never_beaten (_ : World) (_ : Quest) (_ : Z) : bool := false.
Definition first_win :=
  process_win false ""%string table bot draw url_of delivers activity_ok clock
    never_beaten str_of.
Definition start := process_start clock activity_ok next_pk.
Definition active := get_active_attempt_if_any clock just_created cooldown.

(** A store with one cached leaderboard, here a number. *)
Definition a_store : list (JSONStore Z) :=
  [mkJSONStore 1 "quests"%string "leaderboard"%string 7].

End MoreExamples.
(* ===================================================================== *)
(** ** Facts about the Python primitives *)
(* ===================================================================== *)

Module PyFacts.
Import Py.

Lemma slice_to_nonneg {A} (n : Z) (l : list A) :
  0 <= n -> slice_to n l = take (Z.to_nat n) l.
Proof.
  intros Hn. unfold slice_to.
  destruct (0 <=? n) eqn:E; [reflexivity | apply Z.leb_gt in E; lia].
Qed.

Lemma slice_to_prefix {A} (n : Z) (l : list A) :
  exists k, slice_to n l = take k l.
Proof. unfold slice_to. destruct (0 <=? n); eauto. Qed.

Lemma slice_to_elem {A} (n : Z) (l : list A) (x : A) :
  x ∈ slice_to n l -> x ∈ l.
Proof.
  destruct (slice_to_prefix n l) as [k ->]. apply subseteq_take.
Qed.

Lemma slice_to_large {A} (n : Z) (l : list A) :
  Z.of_nat (length l) <= n -> slice_to n l = l.
Proof.
  intros Hn. rewrite slice_to_nonneg by lia. apply take_ge. lia.
Qed.

(** *** The dict *)

Lemma eqb_decide (a b : string) :
  String.eqb a b = bool_decide (a = b).
Proof.
  destruct (String.eqb_spec a b) as [->|Hne].
  - by rewrite bool_decide_eq_true_2.
  - by rewrite bool_decide_eq_false_2.
Qed.

Lemma contains_get {V} (d : dict V) key :
  contains d key = bool_decide (is_Some (get d key)).
Proof.
  induction d as [|[k v] d IH]; simpl.
  - done.
  - destruct (String.eqb k key); [|done].
    symmetry. by apply bool_decide_eq_true_2.
Qed.

Lemma get_set {V} (d : dict V) key v key' :
  get (set d key v) key' = if decide (key = key') then Some v else get d key'.
Proof.
  induction d as [|[k w] d IH]; simpl.
  - rewrite eqb_decide. by case_bool_decide; case_decide.
  - rewrite (eqb_decide k key). case_bool_decide as Hk; simpl.
    + subst k. rewrite eqb_decide. by case_bool_decide; case_decide.
    + rewrite IH, eqb_decide.
      case_bool_decide; case_decide; congruence.
Qed.

Lemma get_None_keys {V} (d : dict V) key :
  get d key = None <-> key ∉ keys d.
Proof.
  induction d as [|[k w] d IH]; simpl.
  - split; [intros _; apply not_elem_of_nil | done].
  - rewrite eqb_decide, not_elem_of_cons. case_bool_decide as Hk.
    + split; [done | intros [? _]; congruence].
    + rewrite IH. split; [intros ?; split; [congruence | done] | by intros [_ ?]].
Qed.

Lemma keys_set {V} (d : dict V) key v :
  keys (set d key v) = if decide (key ∈ keys d) then keys d else keys d ++ [key].
Proof.
  induction d as [|[k w] d IH]; simpl.
  - done.
  - rewrite eqb_decide. case_bool_decide as Hk; simpl.
    + subst. rewrite decide_True; [done | apply list_elem_of_here].
    + rewrite IH. case_decide as Hin.
      * rewrite decide_True; [done | by apply list_elem_of_further].
      * rewrite decide_False; [done |].
        rewrite elem_of_cons. intros [?|?]; [congruence | done].
Qed.

Lemma get_Some_elem {V} (d : dict V) key v :
  NoDup (keys d) -> (key, v) ∈ d <-> get d key = Some v.
Proof.
  induction d as [|[k w] d IH]; simpl; intros Hnd.
  - split; [by intros ?%elem_of_nil | done].
  - apply NoDup_cons in Hnd as [Hk Hnd].
    rewrite elem_of_cons, eqb_decide, IH by done.
    case_bool_decide as Hkk.
    + subst k. split.
      * intros [[= ->]|Hg]; [done |].
        exfalso. apply Hk. apply dec_stable. intros Hn.
        apply get_None_keys in Hn. congruence.
      * intros [= ->]. by left.
    + split; [intros [[= ? ?]|?]; [congruence | done] | by right].
Qed.

(** *** The sort *)

Lemma insert_desc_perm {K} (x : K * Q) l : insert_desc x l ≡ₚ x :: l.
Proof.
  induction l as [|y l IH]; simpl; [done |].
  destruct (Qle_bool (snd y) (snd x)); [done |].
  rewrite IH. apply Permutation_swap.
Qed.

Lemma sorted_desc_perm {K} (l : list (K * Q)) : sorted_desc l ≡ₚ l.
Proof.
  induction l as [|x l IH]; simpl; [done |].
  unfold sorted_desc in *. simpl. by rewrite insert_desc_perm, IH.
Qed.

Lemma sorted_desc_length {K} (l : list (K * Q)) :
  length (sorted_desc l) = length l.
Proof. apply Permutation_length, sorted_desc_perm. Qed.

Lemma insert_desc_sorted {K} (x : K * Q) l :
  StronglySorted desc l -> StronglySorted desc (insert_desc x l).
Proof.
  induction 1 as [|y l Hs IH Hy]; simpl.
  - repeat constructor.
  - destruct (Qle_bool (snd y) (snd x)) eqn:E.
    + apply Qle_bool_iff in E.
      constructor; [by constructor |].
      constructor; [done |].
      eapply Forall_impl; [exact Hy |].
      intros z Hz. unfold desc in *. exact (Qle_trans _ _ _ Hz E).
    + constructor; [done |].
      rewrite insert_desc_perm. constructor; [|done].
      unfold desc. apply Qlt_le_weak, Qnot_le_lt.
      intros Hle. apply Qle_bool_iff in Hle. congruence.
Qed.

Lemma sorted_desc_sorted {K} (l : list (K * Q)) :
  StronglySorted desc (sorted_desc l).
Proof.
  induction l as [|x l IH]; [constructor |].
  by apply insert_desc_sorted.
Qed.

(** The sort is stable: the items of one key value keep their order. *)
Lemma insert_desc_stable {K} (v : Q) (x : K * Q) l :
  filter (fun e => Qeq_bool (snd e) v = true) (insert_desc x l)
  = filter (fun e => Qeq_bool (snd e) v = true) (x :: l).
Proof.
  induction l as [|y l IH]; simpl; [done |].
  destruct (Qle_bool (snd y) (snd x)) eqn:E; [done |].
  rewrite filter_cons, IH, !filter_cons.
  destruct (decide (Qeq_bool (snd y) v = true)) as [Hy|]; [|done].
  destruct (decide (Qeq_bool (snd x) v = true)) as [Hx|]; [|done].
  exfalso.
  assert (Hxy : (snd y <= snd x)%Q).
  { apply Qeq_bool_iff in Hx, Hy. rewrite Hx, Hy. apply Qle_refl. }
  apply Qle_bool_iff in Hxy. congruence.
Qed.

Lemma sorted_desc_stable {K} (v : Q) (l : list (K * Q)) :
  filter (fun e => Qeq_bool (snd e) v = true) (sorted_desc l)
  = filter (fun e => Qeq_bool (snd e) v = true) l.
Proof.
  induction l as [|x l IH]; [done |].
  unfold sorted_desc in *. simpl.
  rewrite insert_desc_stable, !filter_cons, IH. done.
Qed.

(** *** Where the sort puts an item *)

Lemma filter_all {A} (P : A -> Prop) `{forall x, Decision (P x)} (l : list A) :
  Forall P l -> filter P l = l.
Proof.
  induction 1 as [|x l Hx Hl IH]; [done |].
  by rewrite filter_cons, decide_True, IH.
Qed.

Lemma filter_nothing {A} (P : A -> Prop) `{forall x, Decision (P x)} (l : list A) :
  Forall (fun x => ~ P x) l -> filter P l = [].
Proof.
  induction 1 as [|x l Hx Hl IH]; [done |].
  by rewrite filter_cons, decide_False, IH.
Qed.

Lemma filter_length_cons {A} (P : A -> Prop) `{forall x, Decision (P x)} x (l : list A) :
  length (filter P (x :: l))
  = ((if decide (P x) then 1 else 0) + length (filter P l))%nat.
Proof. rewrite filter_cons. by destruct (decide (P x)). Qed.

(** The insertion puts the item after the items with a greater key and
    before all the others. *)
Lemma insert_desc_split {K} (a : K * Q) (s : list (K * Q)) :
  StronglySorted desc s ->
  exists s1 s2,
    s = s1 ++ s2
    /\ insert_desc a s = s1 ++ a :: s2
    /\ Forall (fun y => Qle_bool (snd y) (snd a) = false) s1
    /\ Forall (fun y => Qle_bool (snd y) (snd a) = true) s2.
Proof.
  induction 1 as [|y s Hs IH Hy]; simpl.
  - exists [], []. by repeat constructor.
  - destruct (Qle_bool (snd y) (snd a)) eqn:E.
    + exists [], (y :: s). split_and!; try done.
      constructor; [done |].
      eapply Forall_impl; [exact Hy |].
      intros z Hz. apply Qle_bool_iff. apply Qle_bool_iff in E.
      exact (Qle_trans _ _ _ Hz E).
    + destruct IH as (s1 & s2 & -> & Hins & H1 & H2).
      exists (y :: s1), s2. rewrite Hins. split_and!; try done.
      by constructor.
Qed.

(** The place of an item in the sorted list: after the items with a
    greater key, and after the items with an equal key that stood before it
    in the input. *)
Lemma sorted_desc_index {K} (l : list (K * Q)) :
  forall (i : nat) (x : K * Q),
    sorted_desc l !! i = Some x ->
    exists j : nat,
      l !! j = Some x
      /\ i = (length (filter (fun y => Qle_bool (snd y) (snd x) = false) l)
              + length (filter (fun y => Qeq_bool (snd y) (snd x) = true)
                          (take j l)))%nat.
Proof.
  induction l as [|a l IH]; intros i x Hi; [done |].
  change (sorted_desc (a :: l)) with (insert_desc a (sorted_desc l)) in Hi.
  destruct (insert_desc_split a (sorted_desc l) (sorted_desc_sorted l))
    as (s1 & s2 & Hs & Hins & H1 & H2).
  rewrite Hins in Hi.
  assert (Hcount : forall P : K * Q -> Prop, forall Hdec : (forall y, Decision (P y)),
             length (filter P l) = (length (filter P s1) + length (filter P s2))%nat).
  { intros P Hdec. rewrite <- length_app, <- filter_app, <- Hs.
    apply Permutation_length. by rewrite sorted_desc_perm. }
  apply lookup_app_Some in Hi as [Hi|[Hlen Hi]].
  - (* an item that stays before the new one *)
    assert (Hx : Qle_bool (snd x) (snd a) = false).
    { rewrite Forall_forall in H1. apply H1. by eapply list_elem_of_lookup_2. }
    destruct (IH i x) as (j & Hj & Hij).
    { rewrite Hs. by apply lookup_app_l_Some. }
    exists (S j). split; [done |].
    rewrite firstn_cons, !filter_length_cons.
    assert (Hlt : (snd a < snd x)%Q).
    { apply Qnot_le_lt. intros Hle. apply Qle_bool_iff in Hle. congruence. }
    rewrite decide_False.
    2:{ intros Hf. assert (Hle : (snd a <= snd x)%Q) by (by apply Qlt_le_weak).
        apply Qle_bool_iff in Hle. congruence. }
    rewrite decide_False.
    2:{ intros Hf. apply Qeq_bool_iff in Hf. rewrite Hf in Hlt.
        by apply Qlt_irrefl in Hlt. }
    lia.
  - destruct (i - length s1)%nat as [|i'] eqn:Hd; simpl in Hi.
    + (* the new item *)
      injection Hi as <-. exists 0%nat. split; [done |].
      rewrite filter_length_cons, decide_False.
      2:{ intros Hf. assert (Hle : (snd a <= snd a)%Q) by apply Qle_refl.
          apply Qle_bool_iff in Hle. congruence. }
      rewrite (Hcount _ _), filter_all, filter_nothing; [simpl; lia | | done].
      eapply Forall_impl; [exact H2 |]. intros y Hy. simpl in *. congruence.
    + (* an item that moves one place down *)
      assert (Hx : Qle_bool (snd x) (snd a) = true).
      { rewrite Forall_forall in H2. apply H2. by eapply list_elem_of_lookup_2. }
      destruct (IH (length s1 + i')%nat x) as (j & Hj & Hij).
      { rewrite Hs. by rewrite lookup_app_r, Nat.add_comm, Nat.add_sub by lia. }
      exists (S j). split; [done |].
      rewrite firstn_cons, !filter_length_cons.
      apply Qle_bool_iff in Hx.
      destruct (decide (Qle_bool (snd a) (snd x) = false)) as [Hab|Hab].
      * rewrite decide_False; [lia |].
        intros Hf. apply Qeq_bool_iff in Hf.
        assert (Hle : (snd a <= snd x)%Q) by (rewrite Hf; apply Qle_refl).
        apply Qle_bool_iff in Hle. congruence.
      * rewrite decide_True; [lia |].
        apply Qeq_bool_iff, Qle_antisym; [|done].
        apply Qle_bool_iff. by destruct (Qle_bool (snd a) (snd x)).
Qed.

End PyFacts.

(* ===================================================================== *)
(** ** The leaderboard: what [generate_leaderboard] returns *)
(* ===================================================================== *)

Section LeaderboardFacts.

Variable Token_get : Z -> Token.
Variable quest_redemptions : string -> list Token.
Variable list_of_set : list (string * string) -> list (string * string).

Local Abbreviation this_ele := (this_ele Token_get quest_redemptions list_of_set).
Local Abbreviation rows := (rows Token_get quest_redemptions list_of_set).
Local Abbreviation assemble := (assemble Token_get quest_redemptions list_of_set).
Local Abbreviation generate_leaderboard :=
  (generate_leaderboard Token_get quest_redemptions list_of_set).

Lemma assemble_cons (r : Heap.ref) (counter : Z) ele rest :
  assemble r counter (ele :: rest)
  = Heap.bind (Heap.append r (this_ele (counter + 1) ele))
      (fun _ => assemble r (counter + 1) rest).
Proof. reflexivity. Qed.

Lemma rows_cons (counter : Z) ele rest :
  rows counter (ele :: rest) = this_ele (counter + 1) ele :: rows (counter + 1) rest.
Proof. reflexivity. Qed.

(** The second loop appends the rows to the list it was given. *)
Lemma assemble_rows (r : Heap.ref) (leaderboard : list (string * Q)) :
  forall (counter : Z) (h : Heap.t) (acc : list Entry),
    h !! r = Some acc ->
    assemble r counter leaderboard h
    = Some (tt, <[r := acc ++ rows counter leaderboard]> h).
Proof.
  induction leaderboard as [|ele rest IH]; intros counter h acc Hr.
  - change (Some (tt, h) = Some (tt, <[r := acc ++ []]> h)).
    by rewrite app_nil_r, list_insert_id.
  - rewrite assemble_cons, rows_cons.
    unfold Heap.bind, Heap.append. rewrite Hr.
    rewrite (IH _ _ (acc ++ [this_ele (counter + 1) ele])).
    + by rewrite list_insert_insert_eq, <- app_assoc.
    + apply list_lookup_insert_eq. by eapply lookup_lt_Some.
Qed.

Lemma rows_length (leaderboard : list (string * Q)) (counter : Z) :
  length (rows counter leaderboard) = length leaderboard.
Proof.
  revert counter. induction leaderboard as [|ele rest IH]; intros c; simpl;
    [done | by rewrite IH].
Qed.

Lemma rows_lookup (leaderboard : list (string * Q)) :
  forall (counter : Z) (i : nat),
    rows counter leaderboard !! i
    = this_ele (counter + Z.of_nat i + 1) <$> leaderboard !! i.
Proof.
  induction leaderboard as [|ele rest IH]; intros c i; [done |].
  destruct i as [|i]; simpl.
  - by rewrite Z.add_0_r.
  - rewrite IH. do 2 f_equal. lia.
Qed.

Lemma generate_leaderboard_returns (awards : list QuestPointAward) (max_entries : Z) :
  generate_leaderboard awards max_entries
  = Some (returned_lists max_entries (rows 0 (ranking awards))).
Proof.
  unfold generate_leaderboard, Heap.run,
    generate_leaderboard_M.
  fold (ranking awards).
  unfold Heap.bind at 1. simpl.
  unfold Heap.bind at 1.
  rewrite (assemble_rows 0%nat (ranking awards) 0 [[]] []) by done.
  simpl.
  destruct (ranking awards) as [|e1 [|e2 [|e3 rest]]]; simpl; try done.
Qed.

(** *** The totals *)

Local Abbreviation handle_of := (fun qpa : QuestPointAward => handle (qpa_profile qpa)).

Lemma filter_none {A} (P : A -> Prop) `{forall x, Decision (P x)} (l : list A) :
  (forall x, x ∈ l -> ~ P x) -> filter P l = [].
Proof.
  induction l as [|x l IH]; intros Hl; [done |].
  rewrite filter_cons, decide_False by (apply Hl, list_elem_of_here).
  apply IH. intros y Hy. by apply Hl, list_elem_of_further.
Qed.

Lemma totals_snoc (awards : list QuestPointAward) (qpa : QuestPointAward) :
  totals (awards ++ [qpa]) = add_award (totals awards) qpa.
Proof. unfold totals. by rewrite foldl_app. Qed.

Lemma get_add_award (d : Py.dict Q) (qpa : QuestPointAward) (h : string) :
  Py.get (add_award d qpa) h
  = if decide (handle_of qpa = h)
    then Some (default 0%Q (Py.get d h) + qpa_value qpa)%Q
    else Py.get d h.
Proof.
  unfold add_award. rewrite PyFacts.contains_get.
  destruct (Py.get d (handle_of qpa)) as [total|] eqn:Hget.
  - rewrite bool_decide_eq_true_2 by eauto. simpl.
    rewrite Hget, PyFacts.get_set.
    case_decide as Hh; [subst h; by rewrite Hget | done].
  - rewrite bool_decide_eq_false_2 by (by intros [? ?]). simpl.
    rewrite !PyFacts.get_set, decide_True by done.
    rewrite PyFacts.get_set.
    case_decide as Hh; [subst h; by rewrite Hget |].
    by rewrite PyFacts.get_set, decide_False.
Qed.

Lemma keys_add_award (d : Py.dict Q) (qpa : QuestPointAward) :
  Py.keys (add_award d qpa)
  = if decide (handle_of qpa ∈ Py.keys d) then Py.keys d
    else Py.keys d ++ [handle_of qpa].
Proof.
  unfold add_award. rewrite PyFacts.contains_get.
  destruct (Py.get d (handle_of qpa)) as [total|] eqn:Hget.
  - rewrite bool_decide_eq_true_2 by eauto. simpl.
    rewrite Hget, PyFacts.keys_set.
    assert (Hin : handle_of qpa ∈ Py.keys d).
    { apply dec_stable. intros Hn. apply PyFacts.get_None_keys in Hn. congruence. }
    by rewrite !decide_True.
  - rewrite bool_decide_eq_false_2 by (by intros [? ?]). simpl.
    apply PyFacts.get_None_keys in Hget.
    rewrite PyFacts.get_set, decide_True by done.
    rewrite !PyFacts.keys_set, (decide_False _ _ Hget).
    rewrite decide_True by (apply elem_of_app; right; apply list_elem_of_here).
    done.
Qed.

Lemma totals_keys (awards : list QuestPointAward) :
  NoDup (Py.keys (totals awards))
  /\ forall h, h ∈ Py.keys (totals awards) <-> h ∈ map handle_of awards.
Proof.
  induction awards as [|qpa awards [IHnd IHin]] using rev_ind.
  - split; [constructor | done].
  - rewrite totals_snoc, keys_add_award, map_app. simpl.
    case_decide as Hin.
    + split; [done |]. intros h. rewrite elem_of_app, list_elem_of_singleton, <- IHin.
      split; [by left | intros [? | ->]; done].
    + split.
      * apply NoDup_app. split; [done |]. split; [|apply NoDup_singleton].
        intros h Hh ->%list_elem_of_singleton. done.
      * intros h. by rewrite !elem_of_app, IHin.
Qed.

Lemma totals_get (awards : list QuestPointAward) (h : string) :
  Py.get (totals awards) h
  = if decide (h ∈ map handle_of awards) then Some (total_for h awards) else None.
Proof.
  induction awards as [|qpa awards IH] using rev_ind; [done |].
  rewrite totals_snoc, get_add_award, IH, map_app. simpl.
  unfold total_for. rewrite filter_app, map_app, foldl_app.
  rewrite filter_cons, filter_nil.
  destruct (decide (handle_of qpa = h)) as [Hh|Hh]; simpl.
  - rewrite (decide_True (P := h ∈ _ ++ _))
      by (apply elem_of_app; right; subst h; apply list_elem_of_here).
    f_equal. f_equal. case_decide as Hin; [done |].
    rewrite filter_none; [done |].
    intros x Hx Hxh. apply Hin. apply list_elem_of_fmap. eauto.
  - destruct (decide (h ∈ map handle_of awards)) as [Hin|Hin].
    + by rewrite decide_True by (apply elem_of_app; by left).
    + rewrite decide_False; [done |].
      rewrite elem_of_app, list_elem_of_singleton. intros [?|?]; congruence.
Qed.

(** The dict has one item for each contributing handle. *)
Lemma totals_length (awards : list QuestPointAward) :
  length (totals awards) = length (contributors awards).
Proof.
  destruct (totals_keys awards) as [Hnd Hin].
  transitivity (length (Py.keys (totals awards))).
  { unfold Py.keys. by rewrite length_map. }
  apply Permutation_length, NoDup_Permutation;
    [done | apply NoDup_remove_dups |].
  intros h. unfold contributors. by rewrite Hin, elem_of_remove_dups.
Qed.

Lemma remove_dups_cons (x : string) (l : list string) :
  remove_dups (x :: l) = if decide (x ∈ l) then remove_dups l else x :: remove_dups l.
Proof. reflexivity. Qed.

(** The dict of totals lists the handles in the order of their first
    award. *)
Lemma totals_keys_order (awards : list QuestPointAward) :
  Py.keys (totals awards) = first_awarded awards.
Proof.
  unfold first_awarded.
  induction awards as [|qpa awards IH] using rev_ind; [done |].
  rewrite totals_snoc, keys_add_award, map_app.
  change (map (fun qpa0 => handle (qpa_profile qpa0)) [qpa])
    with [handle (qpa_profile qpa)].
  rewrite reverse_app, reverse_singleton.
  change ([handle (qpa_profile qpa)] ++ ?l) with (handle (qpa_profile qpa) :: l).
  rewrite remove_dups_cons.
  destruct (totals_keys awards) as [_ Hin].
  destruct (decide (handle (qpa_profile qpa) ∈ Py.keys (totals awards))) as [Hk|Hk].
  - rewrite decide_True by (by apply elem_of_reverse, Hin). done.
  - rewrite decide_False by (rewrite elem_of_reverse, <- Hin; done).
    by rewrite reverse_cons, IH.
Qed.

(** The dict of totals, written from the point awards alone. *)
Lemma totals_as_map (awards : list QuestPointAward) :
  totals awards = map (fun h => (h, total_for h awards)) (first_awarded awards).
Proof.
  rewrite <- totals_keys_order. unfold Py.keys.
  assert (Hv : forall h v, (h, v) ∈ totals awards -> v = total_for h awards).
  { intros h v Hin. apply PyFacts.get_Some_elem in Hin; [|apply totals_keys].
    rewrite totals_get in Hin. case_decide; congruence. }
  induction (totals awards) as [|[h v] l IH]; [done |].
  simpl. rewrite <- IH.
  - by rewrite (Hv h v) by apply list_elem_of_here.
  - intros h' v' Hin. apply Hv. by apply list_elem_of_further.
Qed.

Lemma first_awarded_NoDup (awards : list QuestPointAward) :
  NoDup (first_awarded awards).
Proof. rewrite <- totals_keys_order. apply totals_keys. Qed.

Lemma first_awarded_contributors (awards : list QuestPointAward) (h : string) :
  h ∈ first_awarded awards <-> h ∈ contributors awards.
Proof.
  unfold first_awarded, contributors.
  by rewrite elem_of_reverse, !elem_of_remove_dups, elem_of_reverse.
Qed.

(** In a list without repetition the items before the one at place [j]
    are those that stand before it. *)
Lemma earlier_take (handles : list string) :
  forall (j : nat) h,
    NoDup handles -> handles !! j = Some h -> earlier h handles = take j handles.
Proof.
  induction handles as [|x rest IH]; intros j h Hnd Hj; [done |].
  apply NoDup_cons in Hnd as [Hx Hnd].
  destruct j as [|j]; simpl in *.
  - injection Hj as ->. by rewrite decide_True.
  - rewrite decide_False.
    + f_equal. by apply IH.
    + intros ->. apply Hx. by eapply list_elem_of_lookup_2.
Qed.

Lemma filter_map_length {A B} (f : A -> B) (P : B -> Prop)
    `{forall y, Decision (P y)} (l : list A) :
  length (filter P (map f l)) = length (filter (fun x => P (f x)) l).
Proof.
  induction l as [|x l IH]; [done |].
  simpl. rewrite !filter_cons. destruct (decide (P (f x))); simpl; by rewrite IH.
Qed.

(** The item at place [i] of the ranking (from 0) is the handle of true
    rank [i + 1], with the sum of its awards. *)
Lemma ranking_true_rank (awards : list QuestPointAward) (i : nat) (h : string) (v : Q) :
  ranking awards !! i = Some (h, v) ->
  v = total_for h awards /\ Z.of_nat i + 1 = true_rank awards h.
Proof.
  intros Hi. unfold ranking in Hi.
  apply PyFacts.sorted_desc_index in Hi as (j & Hj & ->).
  rewrite totals_as_map in *.
  assert (Hh : first_awarded awards !! j = Some h /\ v = total_for h awards).
  { rewrite list_lookup_fmap in Hj.
    destruct (first_awarded awards !! j) as [h'|]; simpl in Hj; [|done].
    by injection Hj as -> ->. }
  destruct Hh as [Hh ->]. split; [done |].
  unfold true_rank.
  rewrite (earlier_take _ j h (first_awarded_NoDup awards) Hh).
  rewrite firstn_map, !filter_map_length. simpl. lia.
Qed.

(** *** The ranking *)

Lemma ranking_perm (awards : list QuestPointAward) :
  ranking awards ≡ₚ totals awards.
Proof. apply PyFacts.sorted_desc_perm. Qed.

Lemma ranking_sorted (awards : list QuestPointAward) :
  StronglySorted Py.desc (ranking awards).
Proof. apply PyFacts.sorted_desc_sorted. Qed.

Lemma ranking_length (awards : list QuestPointAward) :
  length (ranking awards) = length (contributors awards).
Proof. unfold ranking. by rewrite PyFacts.sorted_desc_length, totals_length. Qed.

Lemma ranking_handles_NoDup (awards : list QuestPointAward) :
  NoDup (map fst (ranking awards)).
Proof.
  rewrite (ranking_perm awards). apply totals_keys.
Qed.

(** An item of the ranking is a contributing handle with the sum of its
    awards. *)
Lemma ranking_elem (awards : list QuestPointAward) (h : string) (v : Q) :
  (h, v) ∈ ranking awards
  <-> h ∈ contributors awards /\ v = total_for h awards.
Proof.
  rewrite (ranking_perm awards).
  rewrite PyFacts.get_Some_elem by apply totals_keys.
  rewrite totals_get. unfold contributors. rewrite elem_of_remove_dups.
  case_decide as Hin.
  - split; [by intros [= ->] | by intros [_ ->]].
  - split; [done | by intros [? _]].
Qed.

Lemma rank_lookup (awards : list QuestPointAward) (i : nat) (h : string) (v : Q) :
  ranking awards !! i = Some (h, v) -> rank awards h = Some (Z.of_nat i + 1).
Proof.
  intros Hi. unfold rank.
  assert (Hf : list_find (fun ele => fst ele = h) (ranking awards) = Some (i, (h, v))).
  { apply list_find_Some. split; [done |]. split; [done |].
    intros j [h' v'] Hj Hlt Hh. simpl in Hh. subst h'.
    assert (j = i); [|lia].
    eapply NoDup_lookup; [apply (ranking_handles_NoDup awards) | |].
    - by rewrite list_lookup_fmap, Hj.
    - by rewrite list_lookup_fmap, Hi. }
  by rewrite Hf.
Qed.

(** A better rank never goes with a smaller total. *)
Lemma rank_descending (awards : list QuestPointAward) (i j : nat) ei ej :
  ranking awards !! i = Some ei -> ranking awards !! j = Some ej ->
  (i < j)%nat -> (snd ej <= snd ei)%Q.
Proof.
  intros Hi Hj Hlt.
  pose proof (ranking_sorted awards) as Hs.
  revert i j Hi Hj Hlt. induction Hs as [|x l Hs IH Hx]; intros i j Hi Hj Hlt.
  - done.
  - destruct j as [|j]; [lia |]. simpl in Hj.
    destruct i as [|i]; simpl in Hi.
    + injection Hi as <-. rewrite Forall_forall in Hx.
      apply Hx. by eapply list_elem_of_lookup_2.
    + eapply IH; eauto. lia.
Qed.

End LeaderboardFacts.

(* ===================================================================== *)
(** ** The leaderboard: the properties of the specification *)
(* ===================================================================== *)

Section LeaderboardClaims.

Variable Token_get : Z -> Token.
Variable quest_redemptions : string -> list Token.
Variable list_of_set : list (string * string) -> list (string * string).

Local Abbreviation this_ele := (this_ele Token_get quest_redemptions list_of_set).
Local Abbreviation rows := (rows Token_get quest_redemptions list_of_set).
Local Abbreviation generate_leaderboard :=
  (generate_leaderboard Token_get quest_redemptions list_of_set).

(** The first three items of the ranking descend, and the others are not
    above the third. *)
Lemma ranking_top3 (awards : list QuestPointAward) e1 e2 e3 rest :
  ranking awards = e1 :: e2 :: e3 :: rest ->
  (snd e2 <= snd e1)%Q /\ (snd e3 <= snd e2)%Q
  /\ Forall (fun e => (snd e <= snd e3)%Q) rest.
Proof.
  intros Hr. pose proof (ranking_sorted awards) as Hs. rewrite Hr in Hs.
  apply StronglySorted_inv in Hs as [Hs H1].
  apply StronglySorted_inv in Hs as [Hs H2].
  apply StronglySorted_inv in Hs as [Hs H3].
  apply Forall_cons in H1 as [H12 _]. apply Forall_cons in H2 as [H23 _].
  done.
Qed.

(** With three contributors or more the full list that is returned starts
    with the row of rank 2, then the row of rank 1: the swap made for the
    hero list is made in the returned list as well. *)
Lemma full_list_has_swap (awards : list QuestPointAward) (max_entries : Z) :
  (3 <= length (contributors awards))%nat -> 2 <= max_entries ->
  exists full hero e1 e2 tail,
    generate_leaderboard awards max_entries = Some (full, hero)
    /\ ranking awards !! 0%nat = Some e1 /\ ranking awards !! 1%nat = Some e2
    /\ full = this_ele 2 e2 :: this_ele 1 e1 :: tail.
Proof.
  intros Hlen Hmax. rewrite generate_leaderboard_returns.
  rewrite <- ranking_length in Hlen.
  destruct (ranking awards) as [|e1 [|e2 [|e3 rest]]]; simpl in Hlen; try lia.
  simpl. rewrite PyFacts.slice_to_nonneg by lia.
  destruct (Z.to_nat max_entries) as [|[|k]] eqn:Hk; try lia.
  eexists _, _, e1, e2, _. simpl. done.
Qed.

(** C5. Fewer than three handles with point awards: the hero list is
    empty. Otherwise there are three distinct handles [h1], [h2], [h3] with
    point awards, whose sums of awards descend in this order and are not
    below the sum of any other handle, of true rank 1, 2 and 3 (ties go to
    the handle awarded first), and the hero list is the entry of
    [h2], then the entry of [h1], then the entry of [h3], and nothing else:
    each entry with the handle, the formatted sum of its awards, its kudos,
    the reward token of its rank and its rank 2, 1 or 3 as counter. *)
Theorem hero_list_is_rank2_rank1_rank3 (awards : list QuestPointAward) (max_entries : Z) :
  let points := fun h => display_pts (total_for h awards) in
  let kudii := fun h =>
    take 5 (list_of_set
              (map (fun t => (img_url t, humanized_name t)) (quest_redemptions h))) in
  exists full hero,
    generate_leaderboard awards max_entries = Some (full, hero)
    /\ if decide (length (contributors awards) < 3)%nat
       then hero = []
       else exists h1 h2 h3,
           NoDup [h1; h2; h3]
           /\ h1 ∈ contributors awards
           /\ h2 ∈ contributors awards
           /\ h3 ∈ contributors awards
           /\ (total_for h2 awards <= total_for h1 awards)%Q
           /\ (total_for h3 awards <= total_for h2 awards)%Q
           /\ (forall h, h ∈ contributors awards -> h ∉ [h1; h2; h3] ->
                         (total_for h awards <= total_for h3 awards)%Q)
           /\ true_rank awards h1 = 1
           /\ true_rank awards h2 = 2
           /\ true_rank awards h3 = 3
           /\ hero = [mkEntry h2 (points h2) (kudii h2) (Some (Token_get 618)) 2;
                      mkEntry h1 (points h1) (kudii h1) (Some (Token_get 621)) 1;
                      mkEntry h3 (points h3) (kudii h3) (Some (Token_get 622)) 3].
Proof.
  intros points kudii.
  rewrite generate_leaderboard_returns, <- ranking_length.
  pose proof (ranking_top3 awards) as Htop.
  pose proof (ranking_handles_NoDup awards) as Hnd.
  assert (Helem : forall h v, (h, v) ∈ ranking awards ->
                              h ∈ contributors awards /\ v = total_for h awards)
    by (intros h v; apply ranking_elem).
  assert (Hall : forall h, h ∈ contributors awards ->
                           (h, total_for h awards) ∈ ranking awards)
    by (intros h Hh; by apply ranking_elem).
  assert (Hrank : forall (i : nat) h v, ranking awards !! i = Some (h, v) ->
                                        true_rank awards h = Z.of_nat i + 1)
    by (intros i h v Hi; by destruct (ranking_true_rank awards i h v Hi)).
  eexists _, _. split; [by rewrite <- surjective_pairing |].
  destruct (decide (length (ranking awards) < 3)%nat) as [Hlt|Hge];
    destruct (ranking awards) as [|[h1 v1] [|[h2 v2] [|[h3 v3] rest]]];
    simpl in *; try lia; try done.
  pose proof (Hrank 0%nat h1 v1 eq_refl) as Hr1.
  pose proof (Hrank 1%nat h2 v2 eq_refl) as Hr2.
  pose proof (Hrank 2%nat h3 v3 eq_refl) as Hr3.
  destruct (Htop _ _ _ _ eq_refl) as (H21 & H32 & Hrest). simpl in *.
  destruct (Helem h1 v1) as [Hc1 ->]; [apply list_elem_of_here |].
  destruct (Helem h2 v2) as [Hc2 ->];
    [apply list_elem_of_further, list_elem_of_here |].
  destruct (Helem h3 v3) as [Hc3 ->];
    [do 2 apply list_elem_of_further; apply list_elem_of_here |].
  exists h1, h2, h3. split_and!; try done.
  - apply NoDup_cons in Hnd as [Hn1 Hnd].
    apply NoDup_cons in Hnd as [Hn2 _].
    apply not_elem_of_cons in Hn1 as [H12 Hn1].
    apply not_elem_of_cons in Hn1 as [H13 _].
    apply not_elem_of_cons in Hn2 as [H23 _].
    repeat constructor; intros Hin;
      repeat (apply elem_of_cons in Hin as [Hin|Hin]; [congruence |]);
      by apply elem_of_nil in Hin.
  - intros h Hh Hnot. specialize (Hall h Hh).
    apply not_elem_of_cons in Hnot as [Hh1 Hnot].
    apply not_elem_of_cons in Hnot as [Hh2 Hnot].
    apply not_elem_of_cons in Hnot as [Hh3 _].
    repeat (apply elem_of_cons in Hall as [Hall|Hall]; [congruence |]).
    rewrite Forall_forall in Hrest. by apply (Hrest _ Hall).
Qed.

(** The rows are those of the ranking, each with its place as counter. *)
Lemma rows_elem (awards : list QuestPointAward) (e : Entry) :
  e ∈ rows 0 (ranking awards) -> rank awards (e_handle e) = Some (e_counter e).
Proof.
  intros [i Hi]%list_elem_of_lookup_1.
  rewrite rows_lookup in Hi.
  destruct (ranking awards !! i) as [[h v]|] eqn:Hr; simpl in Hi; [|discriminate].
  injection Hi as <-. simpl.
  rewrite (rank_lookup awards i h v Hr). f_equal; lia.
Qed.

Lemma returned_lists_elem (max_entries : Z) (ranked : list Entry) (e : Entry) :
  e ∈ fst (returned_lists max_entries ranked)
  \/ e ∈ snd (returned_lists max_entries ranked) ->
  e ∈ ranked.
Proof.
  unfold returned_lists.
  destruct ranked as [|r1 [|r2 [|r3 rest]]]; simpl; intros [He|He];
    try (by apply elem_of_nil in He);
    try (by eapply PyFacts.slice_to_elem).
  - apply PyFacts.slice_to_elem in He. rewrite !elem_of_cons in *. tauto.
  - rewrite !elem_of_cons in *. rewrite elem_of_nil in He. tauto.
Qed.

(** A row is for a handle with point awards, and its counter is the true
    rank of this handle. *)
Lemma rows_true_rank (awards : list QuestPointAward) (e : Entry) :
  e ∈ rows 0 (ranking awards) ->
  e_handle e ∈ contributors awards
  /\ e_counter e = true_rank awards (e_handle e).
Proof.
  intros [i Hi]%list_elem_of_lookup_1.
  rewrite rows_lookup in Hi.
  destruct (ranking awards !! i) as [[h v]|] eqn:Hr; simpl in Hi; [|discriminate].
  injection Hi as <-. simpl.
  destruct (ranking_true_rank awards i h v Hr) as [_ <-].
  split; [|lia].
  apply list_elem_of_lookup_2 in Hr. by apply ranking_elem in Hr as [? _].
Qed.

(** C10. In both returned lists the last component of an entry is the true
    1-based rank of its handle: one more than the number of handles whose
    awards add up to more, or to as much with an earlier first award. It is
    also the place of the handle in the sorted totals. In the hero list the
    entry shown first carries rank 2 and the one shown second rank 1. *)
Theorem entry_counter_is_rank (awards : list QuestPointAward) (max_entries : Z) :
  exists full hero,
    generate_leaderboard awards max_entries = Some (full, hero)
    /\ Forall (fun e => e_handle e ∈ contributors awards
                        /\ e_counter e = true_rank awards (e_handle e)
                        /\ rank awards (e_handle e) = Some (e_counter e)) full
    /\ Forall (fun e => e_handle e ∈ contributors awards
                        /\ e_counter e = true_rank awards (e_handle e)
                        /\ rank awards (e_handle e) = Some (e_counter e)) hero
    /\ (hero = [] \/ map e_counter hero = [2; 1; 3]).
Proof.
  rewrite generate_leaderboard_returns.
  eexists _, _. split; [by rewrite <- surjective_pairing |].
  split; [|split].
  - apply Forall_forall. intros e He.
    assert (Hrow : e ∈ rows 0 (ranking awards))
      by (eapply returned_lists_elem; by left).
    destruct (rows_true_rank awards e Hrow). split_and!; try done.
    by apply rows_elem.
  - apply Forall_forall. intros e He.
    assert (Hrow : e ∈ rows 0 (ranking awards))
      by (eapply returned_lists_elem; by right).
    destruct (rows_true_rank awards e Hrow). split_and!; try done.
    by apply rows_elem.
  - destruct (ranking awards) as [|e1 [|e2 [|e3 rest]]]; simpl; auto.
Qed.

(** C8, as amended. For a bound that is not negative the full list is the
    untruncated list cut after [max_entries] entries, so it has at most
    [max_entries] of them; the hero list has at most three entries, is made
    from the first three rows of the whole ranking and is the same for every
    bound. *)
Theorem full_list_truncated_hero_from_top3 (awards : list QuestPointAward) (max_entries : Z) :
  0 <= max_entries ->
  exists full hero full_all,
    generate_leaderboard awards max_entries = Some (full, hero)
    /\ generate_leaderboard awards (Z.of_nat (length (contributors awards)))
       = Some (full_all, hero)
    /\ length full_all = length (contributors awards)
    /\ full = take (Z.to_nat max_entries) full_all
    /\ Z.of_nat (length full) <= max_entries
    /\ (length hero <= 3)%nat
    /\ hero = match rows 0 (ranking awards) with
              | r1 :: r2 :: r3 :: _ => [r2; r1; r3]
              | _ => []
              end
    /\ forall bound, snd <$> generate_leaderboard awards bound = Some hero.
Proof.
  intros Hmax. rewrite !generate_leaderboard_returns.
  rewrite <- ranking_length, <- (rows_length Token_get quest_redemptions list_of_set (ranking awards) 0).
  set (ranked := rows 0 (ranking awards)).
  assert (Hfull : forall bound,
             0 <= bound ->
             fst (returned_lists bound ranked)
             = take (Z.to_nat bound) (fst (returned_lists (Z.of_nat (length ranked)) ranked))).
  { intros bound Hb. unfold returned_lists.
    destruct ranked as [|r1 [|r2 [|r3 rest]]]; simpl fst;
      rewrite (PyFacts.slice_to_nonneg bound) by done;
      rewrite PyFacts.slice_to_large by (simpl; lia); done. }
  assert (Hhero : forall bound,
             snd (returned_lists bound ranked)
             = match ranked with r1 :: r2 :: r3 :: _ => [r2; r1; r3] | _ => [] end).
  { intros bound. unfold returned_lists.
    by destruct ranked as [|r1 [|r2 [|r3 rest]]]. }
  assert (Hall : length (fst (returned_lists (Z.of_nat (length ranked)) ranked))
                 = length ranked).
  { unfold returned_lists.
    destruct ranked as [|r1 [|r2 [|r3 rest]]]; simpl fst;
      rewrite PyFacts.slice_to_large by (simpl; lia); done. }
  eexists (fst (returned_lists max_entries ranked)),
    (snd (returned_lists max_entries ranked)), _.
  split; [by rewrite <- surjective_pairing |].
  split; [by rewrite (Hhero max_entries), <- (Hhero (Z.of_nat (length ranked))),
            <- surjective_pairing |].
  split; [exact Hall |].
  split; [by apply Hfull |].
  split; [rewrite Hfull, length_take by done; lia |].
  split; [rewrite Hhero; by destruct ranked as [|r1 [|r2 [|r3 rest]]]; simpl; lia |].
  split; [apply Hhero |].
  intros bound. rewrite generate_leaderboard_returns. simpl.
  by rewrite !Hhero.
Qed.

End LeaderboardClaims.

(* ===================================================================== *)
(** ** The displayed point value *)
(* ===================================================================== *)

Section DisplayPts.

Local Open Scope Q_scope.

Lemma floor_bounds (x : Q) :
  inject_Z (Qfloor x) <= x /\ x < inject_Z (Qfloor x) + 1.
Proof.
  split; [apply Qfloor_le |].
  pose proof (Qlt_floor x) as H. rewrite inject_Z_plus in H. exact H.
Qed.

(** The fractional part is zero exactly on the integers. *)
Lemma mod1_zero_iff (v : Q) :
  Py.mod1 v == 0 <-> exists z : Z, v == inject_Z z.
Proof.
  unfold Py.mod1. split.
  - intros H. exists (Qfloor v). lra.
  - intros [z Hz].
    assert (Hf : Qfloor v = z) by (rewrite (Qfloor_comp _ _ Hz); apply Qfloor_Z).
    rewrite Hf. lra.
Qed.

Lemma int_of_integer (v : Q) (z : Z) : v == inject_Z z -> Py.int v = z.
Proof.
  destruct v as [n d]. unfold Qeq, Py.int. simpl. intros H.
  rewrite Z.mul_1_r in H. subst n. apply Z.quot_mul. lia.
Qed.

(** Rounding to the nearest integer moves a number by at most a half. *)
Lemma round_half_even_near (x : Q) :
  Qabs (x - inject_Z (Py.round_half_even x)) <= 1 # 2.
Proof.
  unfold Py.round_half_even.
  destruct (floor_bounds x) as [Hlo Hhi].
  apply Qabs_Qle_condition.
  destruct (Qcompare (x - inject_Z (Qfloor x)) (1 # 2)) eqn:E.
  - apply Qeq_alt in E.
    destruct (Z.even (Qfloor x)); rewrite ?inject_Z_plus;
      change (inject_Z 1) with 1; lra.
  - apply Qlt_alt in E. lra.
  - apply Qgt_alt in E. rewrite inject_Z_plus. change (inject_Z 1) with 1. lra.
Qed.

Lemma round1_tenths (v : Q) :
  Py.round v 1 == inject_Z (Py.round_half_even (v * 10)) / 10.
Proof. reflexivity. Qed.

Lemma round1_near (v : Q) : Qabs (v - Py.round v 1) <= 1 # 20.
Proof.
  rewrite round1_tenths.
  pose proof (round_half_even_near (v * 10)) as H.
  apply Qabs_Qle_condition in H. apply Qabs_Qle_condition.
  set (n := inject_Z (Py.round_half_even (v * 10))) in *.
  unfold Qdiv. change (/ 10) with (1 # 10). lra.
Qed.

(** C7. A total whose fractional part is zero is displayed as the integer
    it is, never as a float; any other total is displayed rounded to one
    decimal place: a number of tenths at most a twentieth away. 10.0 shows
    as 10 and 10.25 as 10.2. *)
Theorem display_pts_format (v : Q) :
  (Py.mod1 v == 0 ->
   exists z : Z, v == inject_Z z /\ display_pts v = Py.Int z)
  /\ (~ Py.mod1 v == 0 ->
      exists k : Z,
        display_pts v = Py.Float (Py.round v 1)
        /\ Py.round v 1 == inject_Z k / 10
        /\ Qabs (v - Py.round v 1) <= 1 # 20)
  /\ display_pts 10 = Py.Int 10
  /\ display_pts (41 # 4) = Py.Float (102 # 10).
Proof.
  split; [|split; [|split; reflexivity]].
  - intros H. unfold display_pts.
    rewrite (proj2 (Qeq_bool_iff _ _) H).
    apply mod1_zero_iff in H as [z Hz].
    exists z. split; [done |]. f_equal. by apply int_of_integer.
  - intros H. unfold display_pts.
    destruct (Qeq_bool (Py.mod1 v) 0) eqn:E.
    { apply Qeq_bool_iff in E. contradiction. }
    exists (Py.round_half_even (v * 10)).
    split; [done |]. split; [apply round1_tenths | apply round1_near].
Qed.

End DisplayPts.

(* ===================================================================== *)
(** ** The referral cascade *)
(* ===================================================================== *)

Section RewardFacts.

Variable DEBUG : bool.
Variable profiles : gmap Z Profile.
Variable gitcoinbot : Profile.
Variable randint : nat -> Z.
Variable coupon_url : BulkTransferCoupon -> string.
Variable delivery_fails : Notification -> bool.
Variable str_of_float : Q -> string.

Local Abbreviation record_award_helper :=
  (record_award_helper DEBUG profiles gitcoinbot randint coupon_url
     delivery_fails str_of_float).
Local Abbreviation record_layer :=
  (record_layer DEBUG gitcoinbot randint coupon_url delivery_fails str_of_float).
Local Abbreviation record_kudos :=
  (record_kudos gitcoinbot randint coupon_url delivery_fails str_of_float).
Local Abbreviation kudos_notification :=
  (kudos_notification gitcoinbot coupon_url str_of_float).
Local Abbreviation new_coupon := (new_coupon randint).
Local Abbreviation referrer_of := (referrer_of profiles).
Local Abbreviation referral_chain := (referral_chain profiles).
Local Abbreviation encloses :=
  (encloses DEBUG profiles gitcoinbot randint coupon_url delivery_fails str_of_float).

(** The function, one call unfolded. *)
Lemma record_award_helper_step qa profile layer w :
  record_award_helper qa profile layer w
  = if decide (layer > max_ref_depth) then Returned tt w
    else match record_layer qa profile layer w with
         | Raised e w' => Raised e w'
         | Returned _ w' =>
             match referrer_of profile with
             | Some r => record_award_helper qa r (layer + 1) w'
             | None => Returned tt w'
             end
         end.
Proof.
  simp record_award_helper.
  destruct (decide (layer > max_ref_depth)); simpl; [done |].
  destruct (record_layer qa profile layer w); simpl; [|done].
  by destruct (referrer_of profile).
Qed.

(** *** One layer *)

Lemma record_layer_point_awards qa profile layer w :
  point_awards (world_of (record_layer qa profile layer w))
  = point_awards w ++ [mkQuestPointAward qa profile (layer_value qa layer)].
Proof.
  unfold record_layer, record_kudos, send_notification_to_user.
  case_decide; [|done]. by destruct (delivery_fails _).
Qed.

(** When the gate passes the layer adds a coupon, whatever the table of
    coupons holds already. *)
Lemma record_layer_coupons qa profile layer w :
  coupons (world_of (record_layer qa profile layer w))
  = if decide (layer > 1 \/ DEBUG = true)
    then coupons w ++ [new_coupon (quest qa) gitcoinbot (pk profile) w]
    else coupons w.
Proof.
  unfold record_layer, record_kudos, send_notification_to_user.
  case_decide; [|done]. by destruct (delivery_fails _).
Qed.

Lemma record_layer_outcome qa profile layer w :
  record_layer qa profile layer w
  = if decide ((layer > 1 \/ DEBUG = true)
               /\ delivery_fails
                    (kudos_notification qa profile (layer_value qa layer)
                       (new_coupon (quest qa) gitcoinbot (pk profile) w)) = true)
    then Raised NotificationError (world_of (record_layer qa profile layer w))
    else Returned tt (world_of (record_layer qa profile layer w)).
Proof.
  unfold record_layer, record_kudos, send_notification_to_user.
  destruct (decide (layer > 1 \/ DEBUG = true)) as [Hg|Hg]; simpl.
  - unfold new_coupon. simpl.
    destruct (delivery_fails _) eqn:E; simpl.
    + by rewrite decide_True.
    + rewrite decide_False; [done | by intros [_ ?]].
  - rewrite decide_False; [done | by intros [? _]].
Qed.

(** *** The whole cascade *)

(** Whatever the table of profiles, a cascade that starts at [layer] adds
    at most [max_ref_depth + 1 - layer] point awards, all for the attempt,
    and touches no other award. *)
Lemma cascade_creates_few qa :
  forall (n : nat) profile layer w,
    Z.to_nat (max_ref_depth + 1 - layer) = n ->
    exists created,
      point_awards (world_of (record_award_helper qa profile layer w))
      = point_awards w ++ created
      /\ (length created <= n)%nat
      /\ Forall (fun a => questattempt a = qa) created.
Proof.
  unfold max_ref_depth.
  induction n as [|n IH]; intros profile layer w Hn;
    rewrite record_award_helper_step; unfold max_ref_depth.
  - rewrite decide_True by lia. exists []. by rewrite app_nil_r.
  - rewrite decide_False by lia.
    pose proof (record_layer_point_awards qa profile layer w) as Hl.
    destruct (record_layer qa profile layer w) as [[] w1|e w1]; simpl in Hl.
    + destruct (referrer_of profile) as [r|].
      * destruct (IH r (layer + 1) w1 ltac:(lia)) as (created & Hc & Hlen & Hqa).
        eexists (_ :: created). rewrite Hc, Hl, <- app_assoc.
        split; [done |]. split; [simpl; lia | by constructor].
      * eexists [_]. split; [exact Hl |]. split; [simpl; lia | by repeat constructor].
    + eexists [_]. split; [exact Hl |]. split; [simpl; lia | by repeat constructor].
Qed.

(** C6. For every table of profiles, also one with referral cycles, the
    call for an attempt ends (the function is total: its recursion descends
    on [max_ref_depth + 1 - layer]) and adds at most 4 point awards, all of
    them for this attempt. *)
Theorem cascade_at_most_four_awards qa profile w :
  exists (o : outcome unit) (created : list QuestPointAward),
    record_award_helper qa profile 1 w = o
    /\ point_awards (world_of o) = point_awards w ++ created
    /\ (length created <= 4)%nat
    /\ Forall (fun a => questattempt a = qa) created.
Proof.
  destruct (cascade_creates_few qa 4 profile 1 w eq_refl) as (created & H).
  by exists (record_award_helper qa profile 1 w), created.
Qed.

(** When no delivery fails, a cascade over a chain returns and has given
    one award to each profile of the chain that a layer up to
    [max_ref_depth] reaches. *)
Lemma cascade_over_chain qa :
  (forall n, delivery_fails n = false) ->
  forall profile chain, referral_chain profile chain ->
  forall layer w,
    exists w',
      record_award_helper qa profile layer w = Returned tt w'
      /\ point_awards w'
         = point_awards w
           ++ cascade_awards qa
                (take (Z.to_nat (max_ref_depth + 1 - layer)) chain) layer.
Proof.
  intros Hok profile chain Hchain.
  induction Hchain as [p Hnone|p r l Hsome Hchain IH]; intros layer w;
    rewrite record_award_helper_step.
  - case_decide as Hl.
    + exists w. split; [done |].
      replace (Z.to_nat (max_ref_depth + 1 - layer)) with 0%nat
        by (unfold max_ref_depth in *; lia).
      by rewrite app_nil_r.
    + pose proof (record_layer_point_awards qa p layer w) as Hw.
      rewrite record_layer_outcome.
      rewrite decide_False by (rewrite Hok; intros [_ ?]; done).
      rewrite Hnone. eexists. split; [done |].
      rewrite Hw.
      destruct (Z.to_nat (max_ref_depth + 1 - layer)) eqn:E;
        [unfold max_ref_depth in *; lia |].
      simpl. by rewrite take_nil.
  - case_decide as Hl.
    + exists w. split; [done |].
      replace (Z.to_nat (max_ref_depth + 1 - layer)) with 0%nat
        by (unfold max_ref_depth in *; lia).
      by rewrite app_nil_r.
    + pose proof (record_layer_point_awards qa p layer w) as Hw.
      rewrite record_layer_outcome.
      rewrite decide_False by (rewrite Hok; intros [_ ?]; done).
      rewrite Hsome.
      destruct (IH (layer + 1) (world_of (record_layer qa p layer w)))
        as (w' & Hrun & Haw).
      exists w'. split; [done |].
      rewrite Haw, Hw, <- app_assoc.
      replace (Z.to_nat (max_ref_depth + 1 - layer))
        with (S (Z.to_nat (max_ref_depth + 1 - (layer + 1))))
        by (unfold max_ref_depth in *; lia).
      done.
Qed.

Lemma cascade_awards_length qa chain layer :
  length (cascade_awards qa chain layer) = length chain.
Proof.
  revert layer. induction chain as [|p l IH]; intros layer; simpl; [done |].
  by rewrite IH.
Qed.

Lemma cascade_awards_lookup qa chain :
  forall layer (k : nat) a,
    cascade_awards qa chain layer !! k = Some a ->
    qpa_value a = layer_value qa (layer + Z.of_nat k)
    /\ chain !! k = Some (qpa_profile a).
Proof.
  induction chain as [|p l IH]; intros layer k a Hk; [done |].
  destruct k as [|k]; simpl in Hk.
  - injection Hk as <-. simpl. by rewrite Z.add_0_r.
  - apply IH in Hk as [-> ?]. split; [f_equal; lia | done].
Qed.

Local Open Scope Q_scope.

(** The halving awards add up as a geometric series does. *)
Lemma cascade_awards_sum qa chain :
  forall layer,
    sum_values (cascade_awards qa chain layer)
    == layer_value qa layer * (2 - 2 ^ (1 - Z.of_nat (length chain))).
Proof.
  induction chain as [|p l IH]; intros layer.
  - simpl. change (2 ^ (1 - 0)) with 2. ring.
  - cbn [cascade_awards sum_values foldr qpa_value length].
    fold (sum_values (cascade_awards qa l (layer + 1))).
    rewrite IH. unfold layer_value.
    replace (layer + 1 - 1)%Z with ((layer - 1) + 1)%Z by lia.
    replace (1 - Z.of_nat (S (length l)))%Z
      with ((1 - Z.of_nat (length l)) + -1)%Z by lia.
    rewrite !Qpower_plus by done.
    change (2 ^ 1) with 2. change (2 ^ (-1)) with (1 # 2).
    assert (Ha : ~ 2 ^ (layer - 1) == 0) by (apply Qpower_not_0; done).
    field; repeat split; (exact Ha || done).
Qed.

Lemma geometric_below_double (v : Q) (n : Z) :
  0 < v -> v * (2 - 2 ^ n) < 2 * v.
Proof.
  intros Hv.
  assert (Hp : 0 < 2 ^ n) by (by apply Qpower_0_lt).
  assert (Hvp : 0 < v * 2 ^ n) by (by apply Qmult_lt_0_compat).
  lra.
Qed.

Lemma layer_value_1 qa : layer_value qa 1 == value (quest qa).
Proof. unfold layer_value. change (2 ^ (1 - 1)) with 1. field. Qed.

(** C4, as amended. Over a chain that ends, and when no delivery fails, one
    call for the winner returns and adds one award for each of the first
    [min (length chain) 4] profiles of the chain, the one of layer [k] being
    worth [quest.value / 2^(k-1)]; their sum is
    [quest.value * (2 - 2^(1 - min (length chain) 4))], which is below
    [2 * quest.value] when [quest.value] is positive. *)
Theorem cascade_sum_over_chain qa profile chain w :
  (forall n, delivery_fails n = false) ->
  referral_chain profile chain ->
  exists w' created,
    record_award_helper qa profile 1 w = Returned tt w'
    /\ point_awards w' = point_awards w ++ created
    /\ length created = Nat.min (length chain) 4
    /\ (forall (k : nat) a,
          created !! k = Some a ->
          qpa_value a = layer_value qa (Z.of_nat k + 1)
          /\ chain !! k = Some (qpa_profile a))
    /\ sum_values created
       == value (quest qa) * (2 - 2 ^ (1 - Z.of_nat (Nat.min (length chain) 4)))
    /\ (0 < value (quest qa) -> sum_values created < 2 * value (quest qa)).
Proof.
  intros Hok Hchain.
  destruct (cascade_over_chain qa Hok profile chain Hchain 1%Z w) as (w' & Hrun & Haw).
  change (Z.to_nat (max_ref_depth + 1 - 1)) with 4%nat in Haw.
  exists w', (cascade_awards qa (take 4 chain) 1).
  assert (Hlen : length (take 4 chain) = Nat.min (length chain) 4)
    by (rewrite length_take; lia).
  assert (Hsum : sum_values (cascade_awards qa (take 4 chain) 1)
                 == value (quest qa)
                    * (2 - 2 ^ (1 - Z.of_nat (Nat.min (length chain) 4)))).
  { rewrite cascade_awards_sum, Hlen, layer_value_1. reflexivity. }
  split; [done |]. split; [done |].
  split; [by rewrite cascade_awards_length |].
  split; [|split; [exact Hsum |]].
  - intros k a Hk. apply cascade_awards_lookup in Hk as [Hv Hp].
    split; [rewrite Hv; f_equal; lia |].
    apply lookup_take_Some in Hp. tauto.
  - intros Hv. rewrite Hsum. by apply geometric_below_double.
Qed.

Local Close Scope Q_scope.

(** The call at the layer where the delivery raises. *)
Lemma failing_layer_raises qa profile layer w :
  layer <= max_ref_depth ->
  layer > 1 \/ DEBUG = true ->
  delivery_fails
    (kudos_notification qa profile (layer_value qa layer)
       (new_coupon (quest qa) gitcoinbot (pk profile) w)) = true ->
  exists w',
    record_award_helper qa profile layer w = Raised NotificationError w'
    /\ point_awards w'
       = point_awards w ++ [mkQuestPointAward qa profile (layer_value qa layer)].
Proof.
  intros Hlayer Hgate Hfail.
  rewrite record_award_helper_step, decide_False by lia.
  pose proof (record_layer_point_awards qa profile layer w) as Hw.
  rewrite record_layer_outcome, decide_True by done.
  by eexists.
Qed.

(** What the inner call raises leaves every call that encloses it, with
    the store as the inner call left it; between the two calls one point
    award was made at each layer. *)
Lemma enclosing_calls_reraise qa outer inner :
  encloses qa outer inner ->
  forall e w',
    record_award_helper qa inner.1.1 inner.1.2 inner.2 = Raised e w' ->
    record_award_helper qa outer.1.1 outer.1.2 outer.2 = Raised e w'
    /\ exists before,
        point_awards inner.2 = point_awards outer.2 ++ before
        /\ Z.of_nat (length before) = inner.1.2 - outer.1.2.
Proof.
  induction 1 as [call|p layer w w1 r inner Hlayer Hl Hr Henc IH]; intros e w' Hraise.
  - split; [done |]. exists []. rewrite app_nil_r. split; [done | simpl; lia].
  - destruct (IH e w' Hraise) as (Hrec & before & Hb & Hlen). simpl in *.
    split.
    + by rewrite record_award_helper_step, decide_False, Hl, Hr by lia.
    + pose proof (record_layer_point_awards qa p layer w) as Hw.
      rewrite Hl in Hw. simpl in Hw.
      eexists (_ :: before). rewrite Hb, Hw, <- app_assoc.
      split; [done | simpl; lia].
Qed.

(** C3, as amended. When the gate passes at a layer and the delivery of
    the notification raises there, the call at this layer has created its
    point award and raises; the exception is caught nowhere, so every call
    that encloses it raises the same exception and leaves the store as it
    was at that moment: after the award of the failing layer there is no
    further point award, whatever referrers come next. *)
Theorem notification_failure_aborts qa p layer w q k wk :
  encloses qa (p, layer, w) (q, k, wk) ->
  k <= max_ref_depth ->
  k > 1 \/ DEBUG = true ->
  delivery_fails
    (kudos_notification qa q (layer_value qa k)
       (new_coupon (quest qa) gitcoinbot (pk q) wk)) = true ->
  exists w' before,
    record_award_helper qa q k wk = Raised NotificationError w'
    /\ record_award_helper qa p layer w = Raised NotificationError w'
    /\ point_awards wk = point_awards w ++ before
    /\ Z.of_nat (length before) = k - layer
    /\ point_awards w'
       = point_awards w ++ before ++ [mkQuestPointAward qa q (layer_value qa k)].
Proof.
  intros Henc Hk Hgate Hfail.
  destruct (failing_layer_raises qa q k wk Hk Hgate Hfail) as (w' & Hraise & Hw').
  destruct (enclosing_calls_reraise qa _ _ Henc NotificationError w' Hraise)
    as (Hout & before & Hb & Hlen).
  simpl in *. exists w', before.
  split_and!; try done. by rewrite Hw', Hb, <- app_assoc.
Qed.

(** An exception of the recursive call leaves the calling layer too. *)
Lemma cascade_raise_propagates qa profile r layer w w1 e w2 :
  layer <= max_ref_depth ->
  record_layer qa profile layer w = Returned tt w1 ->
  referrer_of profile = Some r ->
  record_award_helper qa r (layer + 1) w1 = Raised e w2 ->
  record_award_helper qa profile layer w = Raised e w2.
Proof.
  intros Hlayer Hl Hr Hrec.
  by rewrite record_award_helper_step, decide_False, Hl, Hr by lia.
Qed.

(** A call whose gate passes adds a coupon for the profile to the table,
    whether or not the table already holds one for this token and
    recipient. *)
Lemma cascade_adds_coupon qa profile layer w :
  layer <= max_ref_depth ->
  layer > 1 \/ DEBUG = true ->
  exists later,
    coupons (world_of (record_award_helper qa profile layer w))
    = coupons w ++ new_coupon (quest qa) gitcoinbot (pk profile) w :: later.
Proof.
  intros Hlayer Hgate. revert profile layer w Hlayer Hgate.
  assert (Hany : forall (n : nat) profile layer w,
             Z.to_nat (max_ref_depth + 1 - layer) = n ->
             exists later,
               coupons (world_of (record_award_helper qa profile layer w))
               = coupons w ++ later).
  { induction n as [|n IH]; intros profile layer w Hn;
      rewrite record_award_helper_step.
    - rewrite decide_True by (unfold max_ref_depth in *; lia).
      exists []. by rewrite app_nil_r.
    - rewrite decide_False by (unfold max_ref_depth in *; lia).
      pose proof (record_layer_coupons qa profile layer w) as Hc.
      assert (Hc' : exists l1, coupons (world_of (record_layer qa profile layer w))
                               = coupons w ++ l1).
      { rewrite Hc. case_decide; [by eexists | exists []; by rewrite app_nil_r]. }
      destruct Hc' as [l1 Hl1].
      destruct (record_layer qa profile layer w) as [[] w1|e w1]; simpl in *;
        [|by eexists].
      destruct (referrer_of profile) as [r|]; [|by eexists].
      destruct (IH r (layer + 1) w1 ltac:(unfold max_ref_depth in *; lia)) as [l2 Hl2].
      exists (l1 ++ l2). by rewrite Hl2, Hl1, <- app_assoc. }
  intros profile layer w Hlayer Hgate.
  rewrite record_award_helper_step, decide_False by lia.
  pose proof (record_layer_coupons qa profile layer w) as Hc.
  rewrite decide_True in Hc by done.
  destruct (record_layer qa profile layer w) as [[] w1|e w1]; simpl in *;
    [|exists []; done].
  destruct (referrer_of profile) as [r|]; [|exists []; done].
  destruct (Hany _ r (layer + 1) w1 eq_refl) as [l2 Hl2].
  exists l2. by rewrite Hl2, Hc, <- app_assoc.
Qed.

(** *** The win *)

Variable BASE_URL : string.
Variable activity_fails : Activity -> bool.
Variable now : World -> Z.
Variable is_beaten : World -> Quest -> Z -> bool.

Local Abbreviation process_win :=
  (process_win DEBUG BASE_URL profiles gitcoinbot randint coupon_url
     delivery_fails activity_fails now is_beaten str_of_float).

Lemma record_quest_activity_point_awards quest profile event override w :
  point_awards (record_quest_activity activity_fails now quest profile event override w)
  = point_awards w.
Proof. unfold record_quest_activity. by destruct (activity_fails _). Qed.

End RewardFacts.

(* ===================================================================== *)
(** ** The properties on concrete data *)
(* ===================================================================== *)

Section OnExamples.

Import Examples.

Lemma chain_of_winner : referral_chain table winner [winner; ref1; ref2].
Proof.
  apply chain_step with ref1; [reflexivity |].
  apply chain_step with ref2; [reflexivity |].
  apply chain_end. reflexivity.
Qed.

(** C1. With A = 30, B = 20, C = 10 and D = 5 points and a bound of 25 the
    ranking is A, B, C, D, but the full list that is returned starts with
    B, then A: the swap for the hero list was made in the list object that
    the full list is sliced from. *)
Theorem full_list_swapped_on_example :
  map fst (ranking board) = ["A"; "B"; "C"; "D"]%string
  /\ exists full hero,
      leaderboard_of board 25 = Some (full, hero)
      /\ map e_handle full = ["B"; "A"; "C"; "D"]%string
      /\ map e_counter full = [2; 1; 3; 4]
      /\ map e_handle hero = ["B"; "A"; "C"]%string.
Proof.
  split; [reflexivity |].
  eexists _, _. split; [vm_compute; reflexivity |].
  repeat split.
Qed.

(** C8, where it fails: a bound of -1 is a slice that drops the last
    entry, so three of the four entries are returned. *)
Lemma negative_bound_keeps_entries :
  exists full hero,
    leaderboard_of board (-1) = Some (full, hero)
    /\ length full = 3%nat
    /\ ~ (Z.of_nat (length full) <= -1).
Proof.
  eexists _, _. split; [vm_compute; reflexivity |].
  split; [reflexivity | simpl; lia].
Qed.

Lemma full_list_truncated_hero_from_top3_witness :
  0 <= 2
  /\ exists full hero full_all,
      leaderboard_of board 2 = Some (full, hero)
      /\ leaderboard_of board (Z.of_nat (length (contributors board)))
         = Some (full_all, hero)
      /\ length full_all = length (contributors board)
      /\ full = take (Z.to_nat 2) full_all
      /\ Z.of_nat (length full) <= 2
      /\ (length hero <= 3)%nat
      /\ hero = match rows token_of no_redemptions as_listed 0 (ranking board) with
                | r1 :: r2 :: r3 :: _ => [r2; r1; r3]
                | _ => []
                end
      /\ forall bound, snd <$> leaderboard_of board bound = Some hero.
Proof.
  split; [lia |].
  apply (full_list_truncated_hero_from_top3 token_of no_redemptions as_listed board 2).
  lia.
Defined.

(** C2. The table holds a quest coupon for [ref1]; the cascade for a win of
    [winner] creates another one for [ref1] instead of using it. And two
    cascades for one attempt, from an empty table, leave two coupons for
    [ref1]. *)
Theorem cascade_duplicates_coupon_on_example :
  length (quest_coupons kudos (pk ref1) world_with_coupon) = 1%nat
  /\ length (quest_coupons kudos (pk ref1)
               (world_of (cascade (attempt 8 winner) winner 1 world_with_coupon)))
     = 2%nat
  /\ length (quest_coupons kudos (pk ref1)
               (world_of (cascade (attempt 8 winner) winner 1
                  (world_of (cascade (attempt 8 winner) winner 1 empty_world)))))
     = 2%nat.
Proof. repeat split; vm_compute; reflexivity. Qed.

(** C3, where it fails: the delivery to [ref1], at layer 2, raises; the
    call raises too, and [ref2], who is next in the chain and within the
    depth, has no point award. *)
Lemma notification_failure_stops_example :
  referral_chain table winner [winner; ref1; ref2]
  /\ exists w',
      cascade_undelivered (attempt 8 winner) winner 1 empty_world
      = Raised NotificationError w'
      /\ map qpa_profile (point_awards w') = [winner; ref1]
      /\ ~ (exists a, a ∈ point_awards w' /\ qpa_profile a = ref2).
Proof.
  split; [apply chain_of_winner |].
  eexists. split; [vm_compute; reflexivity |].
  split; [reflexivity |].
  intros (a & Ha & Hp).
  apply (list_elem_of_fmap_2 qpa_profile) in Ha. rewrite Hp in Ha.
  simpl in Ha. rewrite !elem_of_cons, elem_of_nil in Ha.
  destruct Ha as [Ha|[Ha|[]]]; discriminate Ha.
Qed.

Lemma notification_failure_aborts_witness :
  2 <= max_ref_depth
  /\ (2 > 1 \/ false = true)
  /\ never_delivers
       (kudos_notification bot url_of str_of (attempt 8 winner) ref1
          (layer_value (attempt 8 winner) 2)
          (new_coupon draw (quest (attempt 8 winner)) bot (pk ref1)
             world_after_winner))
     = true
  /\ exists w' before,
      cascade_undelivered (attempt 8 winner) ref1 2 world_after_winner
      = Raised NotificationError w'
      /\ cascade_undelivered (attempt 8 winner) winner 1 empty_world
         = Raised NotificationError w'
      /\ point_awards world_after_winner = point_awards empty_world ++ before
      /\ Z.of_nat (length before) = 2 - 1
      /\ point_awards w'
         = point_awards empty_world ++ before
           ++ [mkQuestPointAward (attempt 8 winner) ref1
                 (layer_value (attempt 8 winner) 2)].
Proof.
  split; [unfold max_ref_depth; lia |].
  split; [left; lia |].
  split; [reflexivity |].
  apply (notification_failure_aborts false table bot draw url_of never_delivers
           str_of (attempt 8 winner) winner 1 empty_world ref1 2
           world_after_winner).
  - apply encloses_through with (w1 := world_after_winner) (r := ref1).
    + unfold max_ref_depth. lia.
    + reflexivity.
    + reflexivity.
    + apply encloses_itself.
  - unfold max_ref_depth. lia.
  - left. lia.
  - reflexivity.
Defined.

Local Open Scope Q_scope.

(** C4, where it fails. For a quest of value 0 the one award is worth 0,
    and the sum 0 is not below [2 * 0]. And over the chain of [winner], of
    length 3, with a quest of value 8 and a delivery that raises, the awards
    created add up to 12, not to [8 * (2 - 2^(1-3))], which is 14. *)
Lemma zero_value_sum_not_below_double :
  (referral_chain table loner [loner]
   /\ exists w',
       cascade (attempt 0 loner) loner 1 empty_world = Returned tt w'
       /\ sum_values (point_awards w') == 0
       /\ ~ sum_values (point_awards w') < 2 * value (quest (attempt 0 loner)))
  /\ (referral_chain table winner [winner; ref1; ref2]
      /\ exists w',
          cascade_undelivered (attempt 8 winner) winner 1 empty_world
          = Raised NotificationError w'
          /\ sum_values (point_awards w') == 12
          /\ ~ sum_values (point_awards w')
               == value (quest (attempt 8 winner))
                  * (2 - 2 ^ (1 - Z.of_nat (Nat.min (length [winner; ref1; ref2]) 4)))).
Proof.
  split.
  - split; [apply chain_end; reflexivity |].
    eexists. split; [vm_compute; reflexivity |].
    split; [reflexivity |].
    vm_compute. intros H. discriminate H.
  - split; [apply chain_of_winner |].
    eexists. split; [vm_compute; reflexivity |].
    split; [reflexivity |].
    vm_compute. intros H. discriminate H.
Qed.

Lemma cascade_sum_over_chain_witness :
  (forall n, delivers n = false)
  /\ referral_chain table winner [winner; ref1; ref2]
  /\ exists w' created,
      cascade (attempt 8 winner) winner 1 empty_world = Returned tt w'
      /\ point_awards w' = point_awards empty_world ++ created
      /\ length created = Nat.min (length [winner; ref1; ref2]) 4
      /\ (forall (k : nat) a,
            created !! k = Some a ->
            qpa_value a = layer_value (attempt 8 winner) (Z.of_nat k + 1)
            /\ [winner; ref1; ref2] !! k = Some (qpa_profile a))
      /\ sum_values created
         == value (quest (attempt 8 winner))
            * (2 - 2 ^ (1 - Z.of_nat (Nat.min (length [winner; ref1; ref2]) 4)))
      /\ (0 < value (quest (attempt 8 winner)) ->
          sum_values created < 2 * value (quest (attempt 8 winner))).
Proof.
  split; [reflexivity |].
  split; [apply chain_of_winner |].
  apply (cascade_sum_over_chain false table bot draw url_of delivers str_of
           (attempt 8 winner) winner [winner; ref1; ref2] empty_world).
  - reflexivity.
  - apply chain_of_winner.
Defined.

(** C9. A repeat win of a quest without reward token: [process_win] raises
    where it formats the prize URL, which is before the attempt is saved. No
    URL is returned and the attempt in the table is still unsuccessful. The
    same repeat win of a quest with a reward returns the URL and saves the
    attempt as successful, and creates no point award. *)
Theorem repeat_win_without_reward_raises :
  kudos_reward (quest MoreExamples.bare_attempt) = None
  /\ MoreExamples.beaten MoreExamples.world_with_bare_attempt
       (quest MoreExamples.bare_attempt)
       (request_user MoreExamples.a_request) = true
  /\ (exists w',
        MoreExamples.win MoreExamples.a_request MoreExamples.bare_attempt
          MoreExamples.world_with_bare_attempt
        = Raised AttributeError w'
        /\ attempts w' = [mkQuestAttempt 3 MoreExamples.bare_quest winner false 0]
        /\ point_awards w' = [])
  /\ (exists w',
        MoreExamples.win MoreExamples.a_request MoreExamples.failed_attempt
          MoreExamples.world_with_attempt
        = Returned
            ("/kudos/redeem/?cb=ref:w&tweet_url=/quests/1&tweet=I just won a Quest Kudos Kudos by beating the 'Demo Quest' on @gitcoin quests.")%string
            w'
        /\ attempts w' = [mkQuestAttempt 1 (a_quest 8) winner true 0]
        /\ point_awards w' = []).
Proof.
  split; [reflexivity |].
  split; [reflexivity |].
  split; eexists; (split; [vm_compute; reflexivity |]); split; reflexivity.
Qed.

(** On two profiles that refer each other the call ends after four awards. *)
Lemma cascade_on_cycle_example :
  map (fun a => handle (qpa_profile a))
    (point_awards (world_of (cascade_on_cycle (attempt 8 ann) ann 1 empty_world)))
  = ["ann"; "bob"; "ann"; "bob"]%string.
Proof. vm_compute. reflexivity. Qed.

End OnExamples.

(* ===================================================================== *)
(** ** The records of a cascade *)
(* ===================================================================== *)

#[local] Set Default Proof Using "Type".

Section CascadeFacts.

Variable DEBUG : bool.
Variable profiles : gmap Z Profile.
Variable gitcoinbot : Profile.
Variable randint : nat -> Z.
Variable coupon_url : BulkTransferCoupon -> string.
Variable delivery_fails : Notification -> bool.
Variable str_of_float : Q -> string.

Local Abbreviation record_award_helper :=
  (record_award_helper DEBUG profiles gitcoinbot randint coupon_url
     delivery_fails str_of_float).
Local Abbreviation record_layer :=
  (record_layer DEBUG gitcoinbot randint coupon_url delivery_fails str_of_float).
Local Abbreviation kudos_notification :=
  (kudos_notification gitcoinbot coupon_url str_of_float).
Local Abbreviation new_coupon := (new_coupon randint).
Local Abbreviation referrer_of := (referrer_of profiles).
Local Abbreviation follows := (follows profiles).
Local Abbreviation issued_coupons := (issued_coupons gitcoinbot randint).
Local Abbreviation with_kudos := (with_kudos DEBUG).

(** The store after one layer, whether or not the delivery raised. *)
Lemma record_layer_world qa profile layer w :
  world_of (record_layer qa profile layer w)
  = if decide (layer > 1 \/ DEBUG = true)
    then mkWorld
           (point_awards w ++ [mkQuestPointAward qa profile (layer_value qa layer)])
           (coupons w ++ issued_coupons (quest qa) [profile] (draws w))
           (if delivery_fails
                 (kudos_notification qa profile (layer_value qa layer)
                    (new_coupon (quest qa) gitcoinbot (pk profile) w))
            then notifications w
            else notifications w
                 ++ [kudos_notification qa profile (layer_value qa layer)
                       (new_coupon (quest qa) gitcoinbot (pk profile) w)])
           (activities w) (attempts w) (logged w) (S (draws w))
    else mkWorld
           (point_awards w ++ [mkQuestPointAward qa profile (layer_value qa layer)])
           (coupons w) (notifications w) (activities w) (attempts w) (logged w)
           (draws w).
Proof.
  unfold record_layer, record_kudos, send_notification_to_user.
  case_decide; [|done].
  unfold new_coupon. simpl. by destruct (delivery_fails _).
Qed.

Lemma follows_cons p r ps :
  referrer_of p = Some r -> follows r ps -> follows p (p :: ps).
Proof.
  intros Hr Hps. split; [done |].
  destruct ps as [|r' rest]; [done |].
  destruct Hps as [-> Hrest]. split; [done |]. by split.
Qed.

(** Everything a call from a layer of 1 or more writes. *)
Lemma cascade_records qa :
  forall (n : nat) profile layer w,
    1 <= layer ->
    Z.to_nat (max_ref_depth + 1 - layer) = n ->
    exists awarded,
      follows profile awarded
      /\ (length awarded <= n)%nat
      /\ point_awards (world_of (record_award_helper qa profile layer w))
         = point_awards w ++ cascade_awards qa awarded layer
      /\ coupons (world_of (record_award_helper qa profile layer w))
         = coupons w
           ++ issued_coupons (quest qa) (with_kudos layer awarded) (draws w)
      /\ draws (world_of (record_award_helper qa profile layer w))
         = (draws w + length (with_kudos layer awarded))%nat
      /\ (length (notifications (world_of (record_award_helper qa profile layer w)))
          + (if has_raised (record_award_helper qa profile layer w) then 1 else 0)
          = length (notifications w) + length (with_kudos layer awarded))%nat
      /\ (layer <= max_ref_depth -> exists rest, awarded = profile :: rest)
      /\ (has_raised (record_award_helper qa profile layer w) = false ->
          length awarded = n
          \/ exists q, last awarded = Some q /\ referrer_of q = None).
Proof.
  induction n as [|n IH]; intros profile layer w Hlayer Hn;
    rewrite record_award_helper_step.
  - rewrite decide_True by (unfold max_ref_depth in *; lia).
    exists []. unfold with_kudos.
    destruct (decide (layer > 1 \/ DEBUG = true)); simpl; rewrite ?app_nil_r;
      split_and!; try (done || lia);
      try (intros ?; unfold max_ref_depth in *; lia); by left.
  - rewrite decide_False by (unfold max_ref_depth in *; lia).
    pose proof (record_layer_world qa profile layer w) as Hw.
    pose proof (record_layer_outcome DEBUG gitcoinbot randint coupon_url
                  delivery_fails str_of_float qa profile layer w) as Ho.
    destruct (record_layer qa profile layer w) as [[] w1|e w1] eqn:Hl;
      simpl in Hw; subst w1.
    + destruct (referrer_of profile) as [r|] eqn:Hr.
      * match goal with
        | |- context [record_award_helper qa r (layer + 1) ?w1] =>
            destruct (IH r (layer + 1) w1 ltac:(lia)
                        ltac:(unfold max_ref_depth in *; lia))
              as (awarded & Hf & Hlen & Hpa & Hc & Hd & Hn' & _ & Hdone)
        end.
        exists (profile :: awarded).
        unfold with_kudos in *.
        rewrite (decide_True (P := layer + 1 > 1 \/ _)) in Hc, Hd, Hn' by (left; lia).
        rewrite Hpa, Hc, Hd.
        split; [by apply follows_cons with r |].
        split; [simpl; lia |].
        assert (Hlast : forall q, last awarded = Some q ->
                                  last (profile :: awarded) = Some q).
        { intros q Hq. destruct awarded as [|a rest]; [done |].
          by rewrite last_cons, Hq. }
        destruct (decide (layer > 1 \/ DEBUG = true)) as [Hg|Hg]; simpl.
        -- rewrite <- !app_assoc.
           split; [done |]. split; [done |]. split; [lia |].
           split.
           { rewrite Hn'.
             destruct (delivery_fails _) eqn:Hfail.
             - rewrite decide_True in Ho by done. discriminate Ho.
             - simpl. rewrite ?length_app. simpl. lia. }
           split; [by eexists |].
           intros Hret. destruct (Hdone Hret) as [Hfull|(q & Hq & Hnone)];
             [left; lia | right; exists q; split; [by apply Hlast | done]].
        -- rewrite <- !app_assoc, drop_0.
           split; [done |]. split; [done |]. split; [lia |].
           split; [rewrite Hn'; simpl; lia |].
           split; [by eexists |].
           intros Hret. destruct (Hdone Hret) as [Hfull|(q & Hq & Hnone)];
             [left; lia | right; exists q; split; [by apply Hlast | done]].
      * exists [profile]. split; [done |]. split; [simpl; lia |].
        unfold with_kudos.
        destruct (decide (layer > 1 \/ DEBUG = true)) as [Hg|Hg]; simpl.
        -- split; [done |]. split; [done |]. split; [lia |].
           split.
           { destruct (delivery_fails _) eqn:Hfail.
             - rewrite decide_True in Ho by done. discriminate Ho.
             - simpl. rewrite ?length_app. simpl. lia. }
           split; [by eexists |].
           intros _. right. by exists profile.
        -- rewrite app_nil_r.
           split; [done |]. split; [done |]. split; [lia |].
           split; [lia |].
           split; [by eexists |].
           intros _. right. by exists profile.
    + exists [profile]. split; [done |]. split; [simpl; lia |].
      unfold with_kudos.
      destruct (decide (layer > 1 \/ DEBUG = true)) as [Hg|Hg]; simpl.
      * split; [done |]. split; [done |]. split; [lia |].
        split.
        { destruct (delivery_fails _) eqn:Hfail; [simpl; lia |].
          rewrite decide_False in Ho by (intros [_ ?]; congruence).
          discriminate Ho. }
        split; [by eexists | done].
      * rewrite decide_False in Ho by (intros [? _]; done). discriminate Ho.
Qed.

(** What a call never writes, and what the notifications it sends look
    like. *)
Lemma cascade_untouched qa :
  forall (n : nat) profile layer w,
    Z.to_nat (max_ref_depth + 1 - layer) = n ->
    activities (world_of (record_award_helper qa profile layer w)) = activities w
    /\ attempts (world_of (record_award_helper qa profile layer w)) = attempts w
    /\ logged (world_of (record_award_helper qa profile layer w)) = logged w
    /\ exists sent,
        notifications (world_of (record_award_helper qa profile layer w))
        = notifications w ++ sent
        /\ Forall (fun n => from_user n = user gitcoinbot
                            /\ cta_text n = "Redeem Kudos"%string
                            /\ delivery_fails n = false) sent.
Proof.
  induction n as [|n IH]; intros profile layer w Hn;
    rewrite record_award_helper_step.
  - rewrite decide_True by (unfold max_ref_depth in *; lia).
    split_and!; try done. exists []. by rewrite app_nil_r.
  - rewrite decide_False by (unfold max_ref_depth in *; lia).
    pose proof (record_layer_world qa profile layer w) as Hw.
    assert (Hframe :
              activities (world_of (record_layer qa profile layer w)) = activities w
              /\ attempts (world_of (record_layer qa profile layer w)) = attempts w
              /\ logged (world_of (record_layer qa profile layer w)) = logged w
              /\ exists sent,
                  notifications (world_of (record_layer qa profile layer w))
                  = notifications w ++ sent
                  /\ Forall (fun n => from_user n = user gitcoinbot
                                      /\ cta_text n = "Redeem Kudos"%string
                                      /\ delivery_fails n = false) sent).
    { rewrite Hw. case_decide; simpl.
      - destruct (delivery_fails _) eqn:Hfail.
        + split_and!; try done. exists []. by rewrite app_nil_r.
        + split_and!; try done. eexists [_]. split; [done |].
          by repeat constructor.
      - split_and!; try done. exists []. by rewrite app_nil_r. }
    clear Hw.
    destruct (record_layer qa profile layer w) as [[] w1|e w1]; simpl in Hframe;
      [|done].
    destruct (referrer_of profile) as [r|]; [|done].
    destruct (IH r (layer + 1) w1 ltac:(unfold max_ref_depth in *; lia))
      as (Ha & Ht & Hg & sent2 & Hs2 & Hf2).
    destruct Hframe as (Ha1 & Ht1 & Hg1 & sent1 & Hs1 & Hf1).
    rewrite Ha, Ht, Hg, Hs2, Hs1.
    split_and!; try done.
    exists (sent1 ++ sent2). split; [by rewrite app_assoc |].
    by apply Forall_app.
Qed.

Lemma with_kudos_1 (awarded : list Profile) :
  with_kudos 1 awarded = if DEBUG then awarded else drop 1 awarded.
Proof.
  unfold with_kudos. destruct DEBUG.
  - by rewrite decide_True by (by right).
  - rewrite decide_False; [done |]. intros [?|?]; [lia | done].
Qed.

(** A call raises only when a delivery has raised. *)
Lemma cascade_raises_on_failed_delivery qa :
  (forall n, delivery_fails n = false) ->
  forall (n : nat) profile layer w,
    Z.to_nat (max_ref_depth + 1 - layer) = n ->
    has_raised (record_award_helper qa profile layer w) = false.
Proof.
  intros Hok. induction n as [|n IH]; intros profile layer w Hn;
    rewrite record_award_helper_step.
  - by rewrite decide_True by (unfold max_ref_depth in *; lia).
  - rewrite decide_False by (unfold max_ref_depth in *; lia).
    rewrite record_layer_outcome.
    rewrite decide_False by (rewrite Hok; intros [_ ?]; done).
    destruct (referrer_of profile) as [r|]; [|done].
    apply IH. unfold max_ref_depth in *. lia.
Qed.

(** X1. Whatever the table of profiles and whether or not a delivery
    raises, the awards of one call are for the winner first, then for the
    referrer of each awarded profile in turn, at most four in all, the one at
    place [k] (from 0) being worth [quest.value / 2^k]. *)
Theorem cascade_awards_go_up_the_referrers qa profile w :
  exists rest,
    follows profile (profile :: rest)
    /\ (length rest <= 3)%nat
    /\ point_awards (world_of (record_award_helper qa profile 1 w))
       = point_awards w ++ cascade_awards qa (profile :: rest) 1
    /\ forall (k : nat) a,
        cascade_awards qa (profile :: rest) 1 !! k = Some a ->
        qpa_value a = layer_value qa (Z.of_nat k + 1)
        /\ (profile :: rest) !! k = Some (qpa_profile a).
Proof.
  destruct (cascade_records qa 4 profile 1 w ltac:(lia) eq_refl)
    as (awarded & Hf & Hlen & Hpa & _ & _ & _ & Hhead & _).
  destruct Hhead as [rest ->]; [unfold max_ref_depth; lia |].
  exists rest. split; [done |]. split; [simpl in Hlen; lia |]. split; [done |].
  intros k a Hk. apply cascade_awards_lookup in Hk as [Hv Hp].
  split; [rewrite Hv; f_equal; lia | done].
Qed.

(** X2. One call adds to the coupons exactly one coupon for each awarded
    profile, the winner excepted outside debug mode: a single-use coupon
    tagged 'quest' for the reward token of the quest, sent by gitcoinbot,
    with the next random draws as secrets. The coupons that were there stay,
    and the number of draws grows by the number of new coupons. *)
Theorem cascade_coupons_for_awarded qa profile w :
  exists awarded,
    point_awards (world_of (record_award_helper qa profile 1 w))
    = point_awards w ++ cascade_awards qa awarded 1
    /\ coupons (world_of (record_award_helper qa profile 1 w))
       = coupons w
         ++ issued_coupons (quest qa)
              (if DEBUG then awarded else drop 1 awarded) (draws w)
    /\ draws (world_of (record_award_helper qa profile 1 w))
       = (draws w + length (if DEBUG then awarded else drop 1 awarded))%nat.
Proof.
  destruct (cascade_records qa 4 profile 1 w ltac:(lia) eq_refl)
    as (awarded & _ & _ & Hpa & Hc & Hd & _).
  rewrite with_kudos_1 in Hc, Hd. by exists awarded.
Qed.

(** X3. The notifications a call sends are added after those that were
    there; each is from gitcoinbot with the text 'Redeem Kudos'; there is
    one for each new coupon when the call returns and one less when it
    raises, the coupon of the failed delivery having been created. *)
Theorem cascade_notifications_follow_coupons qa profile w :
  exists issued sent,
    coupons (world_of (record_award_helper qa profile 1 w)) = coupons w ++ issued
    /\ notifications (world_of (record_award_helper qa profile 1 w))
       = notifications w ++ sent
    /\ Forall (fun n => from_user n = user gitcoinbot
                        /\ cta_text n = "Redeem Kudos"%string) sent
    /\ (length sent
        + (if has_raised (record_award_helper qa profile 1 w) then 1 else 0)
        = length issued)%nat.
Proof.
  destruct (cascade_records qa 4 profile 1 w ltac:(lia) eq_refl)
    as (awarded & _ & _ & _ & Hc & _ & Hn & _).
  destruct (cascade_untouched qa 4 profile 1 w eq_refl)
    as (_ & _ & _ & sent & Hs & Hf).
  eexists _, sent. split; [exact Hc |]. split; [exact Hs |].
  split; [eapply Forall_impl; [exact Hf | by intros n (? & ? & _)] |].
  rewrite Hs, length_app in Hn.
  assert (Hi : forall (recipients : list Profile) d,
             length (issued_coupons (quest qa) recipients d) = length recipients).
  { induction recipients as [|p l IH]; intros d; simpl; [done | by rewrite IH]. }
  rewrite Hi. lia.
Qed.

(** X4. A call, from any layer, leaves the activities, the saved attempts
    and the log as they were. *)
Theorem cascade_leaves_other_tables qa profile layer w :
  activities (world_of (record_award_helper qa profile layer w)) = activities w
  /\ attempts (world_of (record_award_helper qa profile layer w)) = attempts w
  /\ logged (world_of (record_award_helper qa profile layer w)) = logged w.
Proof.
  destruct (cascade_untouched qa _ profile layer w eq_refl) as (? & ? & ? & _).
  done.
Qed.

(** X5. When no delivery raises, a call returns whatever the table of
    profiles, cycles included, and it has gone up the referrers as far as
    it could: it made four awards, or the last awarded profile has no
    referrer. *)
Theorem cascade_returns_when_delivered qa profile w :
  (forall n, delivery_fails n = false) ->
  exists w' awarded,
    record_award_helper qa profile 1 w = Returned tt w'
    /\ follows profile awarded
    /\ point_awards w' = point_awards w ++ cascade_awards qa awarded 1
    /\ (length awarded = 4%nat
        \/ exists q, last awarded = Some q /\ referrer_of q = None).
Proof.
  intros Hok.
  pose proof (cascade_raises_on_failed_delivery qa Hok 4 profile 1 w eq_refl) as Hret.
  destruct (cascade_records qa 4 profile 1 w ltac:(lia) eq_refl)
    as (awarded & Hf & _ & Hpa & _ & _ & _ & _ & Hdone).
  specialize (Hdone Hret).
  destruct (record_award_helper qa profile 1 w) as [[] w'|e w']; [|done].
  by exists w', awarded.
Qed.

Local Open Scope Q_scope.

(** X6. For a quest whose value is not negative, the awards of one call
    add up to at most 15/8 of the value, on every table of profiles and
    whether or not the call raises. *)
Theorem cascade_sum_bounded qa profile w :
  0 <= value (quest qa) ->
  exists created,
    point_awards (world_of (record_award_helper qa profile 1 w))
    = point_awards w ++ created
    /\ sum_values created <= (15 # 8) * value (quest qa).
Proof.
  intros Hv.
  destruct (cascade_records qa 4 profile 1 w ltac:(lia) eq_refl)
    as (awarded & _ & Hlen & Hpa & _).
  exists (cascade_awards qa awarded 1). split; [done |].
  rewrite cascade_awards_sum, layer_value_1.
  set (v := value (quest qa)) in *.
  destruct awarded as [|p1 [|p2 [|p3 [|p4 [|p5 rest]]]]]; simpl in Hlen;
    try lia; simpl length.
  - change (2 ^ (1 - Z.of_nat 0)) with 2. lra.
  - change (2 ^ (1 - Z.of_nat 1)) with 1. lra.
  - change (2 ^ (1 - Z.of_nat 2)) with (1 # 2). lra.
  - change (2 ^ (1 - Z.of_nat 3)) with (1 # 4). lra.
  - change (2 ^ (1 - Z.of_nat 4)) with (1 # 8). lra.
Qed.

Local Close Scope Q_scope.

End CascadeFacts.

(* ===================================================================== *)
(** ** The win, part by part *)
(* ===================================================================== *)

Section WinFacts.

Variable DEBUG : bool.
Variable BASE_URL : string.
Variable profiles : gmap Z Profile.
Variable gitcoinbot : Profile.
Variable randint : nat -> Z.
Variable coupon_url : BulkTransferCoupon -> string.
Variable delivery_fails : Notification -> bool.
Variable activity_fails : Activity -> bool.
Variable now : World -> Z.
Variable is_beaten : World -> Quest -> Z -> bool.
Variable str_of_float : Q -> string.

Local Abbreviation process_win :=
  (process_win DEBUG BASE_URL profiles gitcoinbot randint coupon_url
     delivery_fails activity_fails now is_beaten str_of_float).
Local Abbreviation record_award_helper :=
  (record_award_helper DEBUG profiles gitcoinbot randint coupon_url
     delivery_fails str_of_float).
Local Abbreviation win_activity := (win_activity activity_fails now).
Local Abbreviation win_coupon := (win_coupon gitcoinbot randint activity_fails now).
Local Abbreviation win_saved := (win_saved gitcoinbot randint activity_fails now).
Local Abbreviation win_couponed :=
  (win_couponed gitcoinbot randint activity_fails now).
Local Abbreviation prize_url_for := (prize_url_for BASE_URL coupon_url).

(** [process_win], put together from its parts. *)
Lemma process_win_parts request qa w :
  process_win request qa w
  = match kudos_reward (quest qa) with
    | None => Raised AttributeError (win_couponed request qa w)
    | Some reward =>
        if is_beaten w (quest qa) (request_user request)
        then Returned (prize_url_for request qa reward (win_coupon request qa w))
               (win_saved request qa w)
        else match record_award_helper (succeeded qa) (qa_profile qa) 1
                     (win_saved request qa w) with
             | Returned _ w' =>
                 Returned (prize_url_for request qa reward (win_coupon request qa w)) w'
             | Raised e w' => Raised e w'
             end
    end.
Proof.
  unfold process_win, win_saved, win_couponed, win_coupon, win_activity,
    prize_url_for.
  destruct (quest_coupons _ _ _) as [|first others];
    destruct (kudos_reward (quest qa)); try done;
    by destruct (is_beaten w (quest qa) (request_user request)).
Qed.

Lemma win_activity_tables request qa w :
  point_awards (win_activity request qa w) = point_awards w
  /\ coupons (win_activity request qa w) = coupons w
  /\ notifications (win_activity request qa w) = notifications w
  /\ attempts (win_activity request qa w) = attempts w
  /\ draws (win_activity request qa w) = draws w.
Proof.
  unfold win_activity, record_quest_activity. by destruct (activity_fails _).
Qed.

Lemma quest_coupons_coupons tok recipient w1 w2 :
  coupons w1 = coupons w2 ->
  quest_coupons tok recipient w1 = quest_coupons tok recipient w2.
Proof. unfold quest_coupons. by intros ->. Qed.

(** The coupon of the win, read off the table before the call. *)
Lemma win_coupon_found request qa w :
  win_coupon request qa w
  = match quest_coupons (kudos_reward (quest qa)) (pk (request_profile request)) w with
    | first :: _ => first
    | [] =>
        mkBulkTransferCoupon (kudos_reward (quest qa)) "quest" 1 1 0
          (randint (draws w))
          ("Congrats on beating the '" +:+ title (quest qa) +:+ "' Gitcoin Quest")
          gitcoinbot (pk (request_profile request))
    end.
Proof.
  destruct (win_activity_tables request qa w) as (_ & Hc & _ & _ & Hd).
  unfold win_coupon, new_coupon.
  by rewrite (quest_coupons_coupons _ _ _ _ Hc), Hd.
Qed.

(** The store once the coupon is there: one coupon and one draw more when
    the winner had no quest coupon for the token, nothing else changed in
    these tables. *)
Lemma win_couponed_tables request qa w :
  point_awards (win_couponed request qa w) = point_awards w
  /\ notifications (win_couponed request qa w) = notifications w
  /\ attempts (win_couponed request qa w) = attempts w
  /\ coupons (win_couponed request qa w)
     = coupons w
       ++ match quest_coupons (kudos_reward (quest qa))
                  (pk (request_profile request)) w with
          | _ :: _ => []
          | [] => [win_coupon request qa w]
          end
  /\ draws (win_couponed request qa w)
     = (draws w
        + length (match quest_coupons (kudos_reward (quest qa))
                          (pk (request_profile request)) w with
                  | _ :: _ => []
                  | [] => [win_coupon request qa w]
                  end))%nat
  /\ head (quest_coupons (kudos_reward (quest qa)) (pk (request_profile request))
             (win_couponed request qa w))
     = Some (win_coupon request qa w).
Proof.
  destruct (win_activity_tables request qa w) as (Hpa & Hc & Hn & Ha & Hd).
  pose proof (quest_coupons_coupons (kudos_reward (quest qa))
                (pk (request_profile request)) _ _ Hc) as Hq.
  unfold win_couponed, win_coupon. rewrite Hq.
  destruct (quest_coupons _ _ w) as [|first others] eqn:Hfound; simpl.
  - rewrite Hpa, Hn, Ha, Hc, Hd. split_and!; try (done || lia).
    unfold quest_coupons in *. simpl. rewrite Hc, filter_app, Hfound. simpl.
    rewrite filter_cons, decide_True; [done |]. by simpl.
  - rewrite Hpa, Hn, Ha, Hc, Hd, app_nil_r. split_and!; try (done || (simpl; lia)).
    unfold quest_coupons in *. simpl. by rewrite Hc, Hfound.
Qed.

(** The store before the cascade: the attempt saved as well. *)
Lemma win_saved_tables request qa w :
  point_awards (win_saved request qa w) = point_awards w
  /\ notifications (win_saved request qa w) = notifications w
  /\ attempts (win_saved request qa w)
     = filter (fun a => qa_pk a <> qa_pk qa) (attempts w) ++ [succeeded qa]
  /\ coupons (win_saved request qa w) = coupons (win_couponed request qa w)
  /\ draws (win_saved request qa w) = draws (win_couponed request qa w).
Proof.
  destruct (win_couponed_tables request qa w) as (Hpa & Hn & Ha & _).
  change (win_saved request qa w)
    with (save_attempt (succeeded qa) (win_couponed request qa w)).
  unfold save_attempt. simpl. by rewrite Hpa, Hn, Ha.
Qed.

(** The saved attempts after a win, whether it returned or raised. *)
Lemma process_win_attempts request qa w :
  attempts (world_of (process_win request qa w))
  = match kudos_reward (quest qa) with
    | Some _ => filter (fun a => qa_pk a <> qa_pk qa) (attempts w) ++ [succeeded qa]
    | None => attempts w
    end.
Proof.
  rewrite process_win_parts.
  destruct (kudos_reward (quest qa)) as [reward|].
  - destruct (win_saved_tables request qa w) as (_ & _ & Ha & _).
    destruct (is_beaten w (quest qa) (request_user request)); [done |].
    destruct (cascade_untouched DEBUG profiles gitcoinbot randint coupon_url
                delivery_fails str_of_float (succeeded qa) _ (qa_profile qa) 1
                (win_saved request qa w) eq_refl) as (_ & Ht & _).
    rewrite <- Ha, <- Ht.
    by destruct (record_award_helper _ _ _ _).
  - simpl. by destruct (win_couponed_tables request qa w) as (_ & _ & Ha & _).
Qed.

(** X7. [process_win] looks the coupon of the winner up before it creates
    one: with a quest coupon for the reward token and the winner in the
    table it hands out the first of them and creates none, otherwise it
    creates one, with the next random draw as secret. The prize URL of a win
    that returns is built on this coupon. The only other coupons a win adds
    are those of its cascade, one for each awarded profile that passes the
    gate, in the order of the awards: none on a repeat win, and none for a
    quest without reward, where the call raises once the coupon is there. *)
Theorem win_looks_up_coupon_before_creating request qa w :
  let saved := mkQuestAttempt (qa_pk qa) (quest qa) (qa_profile qa) true (state qa) in
  let found :=
    quest_coupons (kudos_reward (quest qa)) (pk (request_profile request)) w in
  let btc :=
    match found with
    | first :: _ => first
    | [] =>
        mkBulkTransferCoupon (kudos_reward (quest qa)) "quest" 1 1 0
          (randint (draws w))
          ("Congrats on beating the '" +:+ title (quest qa) +:+ "' Gitcoin Quest")
          gitcoinbot (pk (request_profile request))
    end in
  let own := match found with _ :: _ => [] | [] => [btc] end in
  exists awarded,
    follows profiles (qa_profile qa) awarded
    /\ (length awarded <= 4)%nat
    /\ point_awards (world_of (process_win request qa w))
       = point_awards w ++ cascade_awards saved awarded 1
    /\ coupons (world_of (process_win request qa w))
       = coupons w ++ own
         ++ issued_coupons gitcoinbot randint (quest qa)
              (with_kudos DEBUG 1 awarded) (draws w + length own)
    /\ match kudos_reward (quest qa) with
       | None =>
           awarded = []
           /\ process_win request qa w
              = Raised AttributeError (world_of (process_win request qa w))
       | Some reward =>
           (if is_beaten w (quest qa) (request_user request)
            then awarded = []
                 /\ process_win request qa w
                    = Returned (prize_url_for request qa reward btc)
                        (world_of (process_win request qa w))
            else exists rest, awarded = qa_profile qa :: rest)
           /\ forall prize_url w',
               process_win request qa w = Returned prize_url w' ->
               prize_url = prize_url_for request qa reward btc
       end.
Proof.
  intros saved found btc own.
  assert (Hbtc : win_coupon request qa w = btc) by apply win_coupon_found.
  destruct (win_couponed_tables request qa w) as (Hpa & _ & _ & Hc & Hd & _).
  destruct (win_saved_tables request qa w) as (Hpa' & _ & _ & Hc' & Hd').
  rewrite Hbtc in Hc, Hd. fold found in Hc, Hd. fold own in Hc, Hd.
  assert (Hnone : with_kudos DEBUG 1 [] = []).
  { unfold with_kudos. by destruct (decide _). }
  rewrite process_win_parts, Hbtc.
  destruct (kudos_reward (quest qa)) as [reward|] eqn:Hreward.
  - destruct (is_beaten w (quest qa) (request_user request)).
    + exists []. rewrite Hnone. cbn [world_of cascade_awards issued_coupons].
      rewrite !app_nil_r.
      split_and!;
        try (done || (simpl; lia) || (by rewrite Hc', Hc)
             || (by intros ? ? [= <- _])).
    + destruct (cascade_records DEBUG profiles gitcoinbot randint coupon_url
                  delivery_fails str_of_float (succeeded qa) 4 (qa_profile qa) 1
                  (win_saved request qa w) ltac:(lia) eq_refl)
        as (awarded & Hf & Hlen & Hcp & Hcc & _ & _ & Hfirst & _).
      exists awarded. split; [exact Hf |]. split; [exact Hlen |].
      split; [|split; [|split]].
      * transitivity (point_awards (world_of (record_award_helper (succeeded qa)
                                      (qa_profile qa) 1 (win_saved request qa w)))).
        -- by destruct (record_award_helper _ _ _ _).
        -- by rewrite Hcp, Hpa'.
      * transitivity (coupons (world_of (record_award_helper (succeeded qa)
                                 (qa_profile qa) 1 (win_saved request qa w)))).
        -- by destruct (record_award_helper _ _ _ _).
        -- rewrite Hcc, Hc', Hc, Hd', Hd, <- app_assoc. reflexivity.
      * apply Hfirst. unfold max_ref_depth. lia.
      * intros prize_url w'.
        destruct (record_award_helper _ _ _ _); [by intros [= <- _] | done].
  - exists []. rewrite Hnone. cbn [world_of cascade_awards issued_coupons].
    rewrite !app_nil_r.
    split_and!; try (done || (simpl; lia)).
Qed.

(** X8. After a win of a quest with a reward, returned or raised by the
    cascade, the table of attempts holds the attempt with [success] set,
    its other fields as they were, as the last row and the only one with its
    key, and every other attempt as it was and in the order it was. A win of
    a quest without reward raises and leaves the attempts as they were. *)
Theorem win_saves_attempt_once request qa w :
  let saved := mkQuestAttempt (qa_pk qa) (quest qa) (qa_profile qa) true (state qa) in
  match kudos_reward (quest qa) with
  | Some _ =>
      attempts (world_of (process_win request qa w))
      = filter (fun a => qa_pk a <> qa_pk qa) (attempts w) ++ [saved]
      /\ (forall a,
             a ∈ attempts (world_of (process_win request qa w))
             <-> a = saved \/ (a ∈ attempts w /\ qa_pk a <> qa_pk qa))
      /\ filter (fun a => qa_pk a = qa_pk qa)
           (attempts (world_of (process_win request qa w)))
         = [saved]
  | None =>
      has_raised (process_win request qa w) = true
      /\ attempts (world_of (process_win request qa w)) = attempts w
  end.
Proof.
  intros saved.
  pose proof (process_win_attempts request qa w) as Ha.
  pose proof (process_win_parts request qa w) as Hp.
  destruct (kudos_reward (quest qa)) as [reward|].
  - rewrite Ha. change (succeeded qa) with saved. split_and!.
    + done.
    + intros a. rewrite elem_of_app, list_elem_of_filter, list_elem_of_singleton.
      tauto.
    + rewrite filter_app, filter_cons, decide_True, filter_nil by done.
      rewrite filter_none; [done |].
      intros a Hin%list_elem_of_filter. tauto.
  - split; [by rewrite Hp | exact Ha].
Qed.

(** X9. Two wins in a row of a quest with a reward by a user who had
    beaten it: both return, with the same prize URL; the first leaves the
    point awards as they were, and the second changes neither the coupons,
    nor the point awards, nor the notifications, nor the attempts that the
    first one left. *)
Theorem repeat_wins_are_idempotent request qa reward w :
  kudos_reward (quest qa) = Some reward ->
  is_beaten w (quest qa) (request_user request) = true ->
  is_beaten (world_of (process_win request qa w)) (quest qa) (request_user request)
  = true ->
  exists prize_url w1 w2,
    process_win request qa w = Returned prize_url w1
    /\ process_win request qa w1 = Returned prize_url w2
    /\ point_awards w1 = point_awards w
    /\ coupons w2 = coupons w1
    /\ point_awards w2 = point_awards w1
    /\ notifications w2 = notifications w1
    /\ attempts w2 = attempts w1.
Proof.
  intros Hreward Hb1 Hb2. rewrite process_win_parts, Hreward, Hb1 in Hb2.
  cbn [world_of] in Hb2.
  destruct (win_saved_tables request qa w) as (Hpa & Hn & Ha & Hc & _).
  destruct (win_couponed_tables request qa w) as (_ & _ & _ & _ & _ & Hhead).
  destruct (win_saved_tables request qa (win_saved request qa w))
    as (Hpa' & Hn' & Ha' & Hc' & _).
  destruct (win_couponed_tables request qa (win_saved request qa w))
    as (_ & _ & _ & Hcc & _).
  rewrite <- (quest_coupons_coupons _ _ _ _ Hc) in Hhead.
  destruct (quest_coupons (kudos_reward (quest qa)) (pk (request_profile request))
              (win_saved request qa w))
    as [|first others] eqn:Hq; [done |].
  simpl in Hhead. injection Hhead as ->.
  assert (Hbtc : win_coupon request qa (win_saved request qa w)
                 = win_coupon request qa w).
  { destruct (win_activity_tables request qa (win_saved request qa w))
      as (_ & Hca & _).
    unfold win_coupon at 1.
    by rewrite (quest_coupons_coupons _ _ _ _ Hca), Hq. }
  exists (prize_url_for request qa reward (win_coupon request qa w)),
    (win_saved request qa w), (win_saved request qa (win_saved request qa w)).
  rewrite !process_win_parts, Hreward, Hb1, Hb2, Hbtc.
  split; [done |]. split; [done |]. split; [done |].
  split; [by rewrite Hc', Hcc, app_nil_r |].
  split; [done |]. split; [done |].
  rewrite Ha', Ha, filter_app, filter_cons, decide_False, filter_nil, app_nil_r
    by (simpl; tauto).
  by rewrite list_filter_filter, (list_filter_iff _ (fun a => qa_pk a <> qa_pk qa))
    by tauto.
Qed.

(** X26. The cascade of [process_win] runs on first wins only, for a
    quest with a reward. The attempt is saved with [success] set and the point awards are
    still as they were. Then a repeat win returns the prize URL at once: it
    creates no point award. A first win runs the cascade for the saved
    attempt and its profile from layer 1, and has the outcome of the
    cascade: it raises when the cascade does and returns the prize URL
    otherwise, and the first point award created is the one of the winner
    at layer 1. *)
Theorem win_cascades_only_first_time request qa reward w :
  kudos_reward (quest qa) = Some reward ->
  let saved := mkQuestAttempt (qa_pk qa) (quest qa) (qa_profile qa) true (state qa) in
  exists prize_url w1,
    point_awards w1 = point_awards w
    /\ attempts w1 = filter (fun a => qa_pk a <> qa_pk qa) (attempts w) ++ [saved]
    /\ if is_beaten w (quest qa) (request_user request)
       then process_win request qa w = Returned prize_url w1
       else process_win request qa w
            = match record_award_helper saved (qa_profile qa) 1 w1 with
              | Returned _ w' => Returned prize_url w'
              | Raised e w' => Raised e w'
              end
            /\ exists later,
                point_awards (world_of (process_win request qa w))
                = point_awards w
                  ++ mkQuestPointAward saved (qa_profile qa) (layer_value saved 1) :: later.
Proof.
  intros Hreward saved.
  destruct (win_saved_tables request qa w) as (Hpa & _ & Ha & _).
  exists (prize_url_for request qa reward (win_coupon request qa w)),
    (win_saved request qa w).
  rewrite process_win_parts, Hreward.
  split; [exact Hpa |]. split; [exact Ha |].
  destruct (is_beaten w (quest qa) (request_user request)); [done |].
  split; [done |].
  destruct (cascade_records DEBUG profiles gitcoinbot randint coupon_url
              delivery_fails str_of_float (succeeded qa) 4 (qa_profile qa) 1
              (win_saved request qa w) ltac:(lia) eq_refl)
    as (awarded & _ & _ & Hcp & _ & _ & _ & Hfirst & _).
  destruct Hfirst as [rest ->]; [unfold max_ref_depth; lia |].
  exists (cascade_awards saved rest (1 + 1)).
  transitivity (point_awards (world_of (record_award_helper (succeeded qa)
                                (qa_profile qa) 1 (win_saved request qa w)))).
  - by destruct (record_award_helper _ _ _ _).
  - by rewrite Hcp, Hpa.
Qed.

End WinFacts.

(* ===================================================================== *)
(** ** Queries, the start of a quest and the cached leaderboard *)
(* ===================================================================== *)

Module OrmFacts.
Import Orm.

Lemma latest_by_snoc {A} (key : A -> Z) (rows : list A) (row : A) :
  latest_by key (rows ++ [row])
  = match latest_by key rows with
    | Some b => if key b <? key row then Some row else Some b
    | None => Some row
    end.
Proof. unfold latest_by. by rewrite foldl_app. Qed.

Lemma latest_by_None {A} (key : A -> Z) (rows : list A) :
  latest_by key rows = None <-> rows = [].
Proof.
  split; [|by intros ->].
  induction rows as [|row rows _] using rev_ind; [done |].
  rewrite latest_by_snoc.
  destruct (latest_by key rows) as [b|]; [by destruct (key b <? key row) | done].
Qed.

(** The row found is one of the rows, and none has a greater key. *)
Lemma latest_by_Some {A} (key : A -> Z) (rows : list A) (a : A) :
  latest_by key rows = Some a ->
  a ∈ rows /\ forall b, b ∈ rows -> key b <= key a.
Proof.
  revert a. induction rows as [|row rows IH] using rev_ind; [done |].
  intros a. rewrite latest_by_snoc.
  destruct (latest_by key rows) as [best|] eqn:Hbest.
  - destruct (IH best eq_refl) as [Hin Hmax].
    destruct (key best <? key row) eqn:Hlt.
    + intros [= <-]. apply Z.ltb_lt in Hlt.
      split; [apply elem_of_app; right; apply list_elem_of_here |].
      intros b [Hb | ->%list_elem_of_singleton]%elem_of_app; [|lia].
      specialize (Hmax b Hb). lia.
    + intros [= <-]. apply Z.ltb_ge in Hlt.
      split; [apply elem_of_app; by left |].
      intros b [Hb | ->%list_elem_of_singleton]%elem_of_app; [by apply Hmax | done].
  - apply latest_by_None in Hbest as ->. intros [= <-].
    split; [apply list_elem_of_here |].
    intros b ->%list_elem_of_singleton. done.
Qed.

(** A row appended with a key above all the others is the one found. *)
Lemma latest_by_fresh {A} (key : A -> Z) (rows : list A) (row : A) :
  (forall b, b ∈ rows -> key b < key row) ->
  latest_by key (rows ++ [row]) = Some row.
Proof.
  intros Hfresh. rewrite latest_by_snoc.
  destruct (latest_by key rows) as [b|] eqn:Hb; [|done].
  apply latest_by_Some in Hb as [Hin _].
  specialize (Hfresh b Hin). by rewrite (proj2 (Z.ltb_lt _ _) Hfresh).
Qed.

End OrmFacts.

Section CachedLeaderboard.

Context {D : Type}.

Local Abbreviation cached :=
  (fun s : JSONStore D => js_view s = "quests"%string /\ js_key s = "leaderboard"%string).

(** X10. [get_leaderboard] returns the data of the row of view 'quests'
    and key 'leaderboard' with the greatest primary key, whatever
    [max_entries] is; when the store has no such row the call fails. *)
Theorem get_leaderboard_reads_latest (store : list (JSONStore D)) (max_entries : Z) :
  match get_leaderboard store max_entries with
  | Some d =>
      exists s, s ∈ store /\ cached s /\ js_data s = d
                /\ forall t, t ∈ store -> cached t -> js_pk t <= js_pk s
  | None => forall s, s ∈ store -> ~ cached s
  end
  /\ forall other, get_leaderboard store other = get_leaderboard store max_entries.
Proof.
  split; [|done]. unfold get_leaderboard.
  destruct (Orm.latest_by js_pk (filter cached store)) as [s|] eqn:Hs; simpl.
  - apply OrmFacts.latest_by_Some in Hs as [Hin Hmax].
    apply list_elem_of_filter in Hin as [Hc Hin].
    exists s. split_and!; try done; try apply Hc.
    intros t Ht Hct. apply Hmax. by apply list_elem_of_filter.
  - apply OrmFacts.latest_by_None in Hs.
    intros s Hin Hc.
    assert (Hf : s ∈ filter cached store) by (by apply list_elem_of_filter).
    rewrite Hs in Hf. by apply elem_of_nil in Hf.
Qed.

(** X11. Once a row of view 'quests' and key 'leaderboard' is added with a
    primary key above those of the store, [get_leaderboard] returns its
    data. *)
Theorem get_leaderboard_after_write (store : list (JSONStore D)) (new_pk : Z) (d : D)
    (max_entries : Z) :
  (forall s, s ∈ store -> js_pk s < new_pk) ->
  get_leaderboard (store ++ [mkJSONStore new_pk "quests" "leaderboard" d]) max_entries
  = Some d.
Proof.
  intros Hfresh. unfold get_leaderboard.
  rewrite filter_app, filter_cons, decide_True, filter_nil by done.
  rewrite OrmFacts.latest_by_fresh; [done |].
  intros b Hb%list_elem_of_filter. apply Hfresh. tauto.
Qed.

End CachedLeaderboard.

Section QuestFacts.

Variable now : World -> Z.
Variable activity_fails : Activity -> bool.
Variable created_on_of : QuestAttempt -> Z.
Variable cooldown_minutes : Quest -> Z.
Variable description : Quest -> string.
Variable to_json_dict : Quest -> string.
Variable new_attempt_pk : World -> Z.

Local Abbreviation get_active_attempt_if_any :=
  (get_active_attempt_if_any now created_on_of cooldown_minutes).
Local Abbreviation is_active_for := (is_active_for now created_on_of cooldown_minutes).
Local Abbreviation get_base_quest_view_params :=
  (get_base_quest_view_params description to_json_dict).
Local Abbreviation process_start := (process_start now activity_fails new_attempt_pk).

(** The attempts the query keeps are those of [is_active_for]. *)
Lemma active_attempts_filter profile quest_ state_ w :
  exists kept,
    get_active_attempt_if_any profile quest_ state_ w = Orm.latest_by qa_pk kept
    /\ forall a, a ∈ kept <-> a ∈ attempts w /\ is_active_for profile quest_ state_ w a.
Proof.
  clear description to_json_dict new_attempt_pk activity_fails.
  unfold get_active_attempt_if_any, is_active_for.
  destruct state_ as [s|]; [destruct (decide (s = 0)) as [->|Hs] |].
  - eexists. split; [done |]. intros a. rewrite list_elem_of_filter. tauto.
  - eexists. split; [done |]. intros a. rewrite !list_elem_of_filter. tauto.
  - eexists. split; [done |]. intros a. rewrite list_elem_of_filter. tauto.
Qed.

(** X12. [get_active_attempt_if_any] returns the attempt with the greatest
    primary key among the unsuccessful attempts of the profile at the quest
    that were created within the cooldown, and [None] exactly when there is
    none. A requested state narrows the search, except the state 0, which is
    ignored like no state at all. *)
Theorem active_attempt_is_latest_match profile quest_ state_ w :
  match get_active_attempt_if_any profile quest_ state_ w with
  | Some a =>
      a ∈ attempts w /\ is_active_for profile quest_ state_ w a
      /\ forall b, b ∈ attempts w -> is_active_for profile quest_ state_ w b ->
                   qa_pk b <= qa_pk a
  | None => forall b, b ∈ attempts w -> ~ is_active_for profile quest_ state_ w b
  end
  /\ get_active_attempt_if_any profile quest_ (Some 0) w
     = get_active_attempt_if_any profile quest_ None w.
Proof.
  split; [|done].
  destruct (active_attempts_filter profile quest_ state_ w) as (kept & -> & Hkept).
  destruct (Orm.latest_by qa_pk kept) as [a|] eqn:Ha.
  - apply OrmFacts.latest_by_Some in Ha as [Hin Hmax].
    apply Hkept in Hin as [Hin Hact]. split_and!; try done.
    intros b Hb Hbact. apply Hmax, Hkept. done.
  - apply OrmFacts.latest_by_None in Ha. subst kept.
    intros b Hb Hbact. eapply elem_of_nil, Hkept. done.
Qed.

(** X13. The counts of the view: the attempt about to be made is counted,
    so [attempt_count] is at least 1 and above [success_count]; a visitor
    without profile gets 1 and 0. *)
Theorem view_params_counts (profile : option Profile) quest_ w :
  1 <= attempt_count (get_base_quest_view_params profile quest_ w)
  /\ 0 <= success_count (get_base_quest_view_params profile quest_ w)
        < attempt_count (get_base_quest_view_params profile quest_ w)
  /\ attempt_count (get_base_quest_view_params None quest_ w) = 1
  /\ success_count (get_base_quest_view_params None quest_ w) = 0.
Proof.
  unfold get_base_quest_view_params. simpl.
  split_and!; try done; try lia.
  match goal with
  | |- Z.of_nat (length (filter ?P ?l)) < _ =>
      pose proof (length_filter P l)
  end.
  lia.
Qed.

Lemma process_start_attempts request quest_ w :
  attempts (process_start request quest_ w)
  = attempts w
    ++ [mkQuestAttempt (new_attempt_pk w) quest_ (request_profile request) false 0].
Proof.
  clear created_on_of cooldown_minutes description to_json_dict.
  unfold process_start, record_quest_activity. by destruct (activity_fails _).
Qed.

(** X14. [process_start] adds one attempt, unsuccessful and in state 0,
    for the profile of the request at the quest, after the attempts that were
    there; the point awards, coupons and notifications stay as they were.
    Then it writes the [played_quest] entry, dated when it is written, for
    that profile with the URL, title and image of the quest: the entry is
    added after the activities that were there and the log stays as it was,
    or, when the write fails, the activities stay as they were and the log
    gets one line. *)
Theorem process_start_adds_one_attempt request quest_ w :
  let started :=
    mkQuestAttempt (new_attempt_pk w) quest_ (request_profile request) false 0 in
  let entry :=
    mkActivity (now (create_attempt started w)) "played_quest"
      (request_profile request) (url quest_) (title quest_)
      (if String.eqb (enemy_img_url quest_) "" then None
       else Some (enemy_img_url quest_)) in
  attempts (process_start request quest_ w) = attempts w ++ [started]
  /\ point_awards (process_start request quest_ w) = point_awards w
  /\ coupons (process_start request quest_ w) = coupons w
  /\ notifications (process_start request quest_ w) = notifications w
  /\ draws (process_start request quest_ w) = draws w
  /\ if activity_fails entry
     then activities (process_start request quest_ w) = activities w
          /\ logged (process_start request quest_ w)
             = logged w ++ ["Activity.objects.create"%string]
     else activities (process_start request quest_ w) = activities w ++ [entry]
          /\ logged (process_start request quest_ w) = logged w.
Proof.
  clear created_on_of cooldown_minutes description to_json_dict.
  intros started entry.
  split; [apply process_start_attempts |].
  unfold process_start, record_quest_activity.
  fold started. fold entry.
  by destruct (activity_fails entry).
Qed.

(** X25. After [process_start] the view counts, for the profile of the
    request at the quest, one attempt more than before and as many
    successes. *)
Theorem view_counts_after_start request quest_ w :
  attempt_count
    (get_base_quest_view_params (Some (request_profile request)) quest_
       (process_start request quest_ w))
  = attempt_count
      (get_base_quest_view_params (Some (request_profile request)) quest_ w) + 1
  /\ success_count
       (get_base_quest_view_params (Some (request_profile request)) quest_
          (process_start request quest_ w))
     = success_count
         (get_base_quest_view_params (Some (request_profile request)) quest_ w).
Proof.
  clear created_on_of cooldown_minutes.
  assert (Hmine :
            filter (fun a => pk (qa_profile a) = pk (request_profile request))
              (quest_attempts quest_ (process_start request quest_ w))
            = filter (fun a => pk (qa_profile a) = pk (request_profile request))
                (quest_attempts quest_ w)
              ++ [mkQuestAttempt (new_attempt_pk w) quest_
                    (request_profile request) false 0]).
  { unfold quest_attempts. rewrite process_start_attempts.
    rewrite filter_app, filter_cons, decide_True, filter_nil by done.
    by rewrite filter_app, filter_cons, decide_True, filter_nil by done. }
  unfold get_base_quest_view_params. cbn [attempt_count success_count].
  rewrite Hmine, filter_app, filter_cons, decide_False, filter_nil, app_nil_r
    by done.
  rewrite length_app. simpl. split; [lia | done].
Qed.

(** X15. The attempt [process_start] has created is the active attempt of
    the profile at the quest, asked without state or with state 0, provided
    its key is above those of the table and its creation time is within the
    cooldown. *)
Theorem started_attempt_is_active request quest_ w :
  (forall a, a ∈ attempts w -> qa_pk a < new_attempt_pk w) ->
  now (process_start request quest_ w)
  - timedelta_minutes (cooldown_minutes quest_)
  < created_on_of
      (mkQuestAttempt (new_attempt_pk w) quest_ (request_profile request) false 0) ->
  get_active_attempt_if_any (request_profile request) quest_ None
    (process_start request quest_ w)
  = Some (mkQuestAttempt (new_attempt_pk w) quest_ (request_profile request) false 0)
  /\ get_active_attempt_if_any (request_profile request) quest_ (Some 0)
       (process_start request quest_ w)
     = Some (mkQuestAttempt (new_attempt_pk w) quest_ (request_profile request) false 0).
Proof.
  clear description to_json_dict.
  intros Hfresh Htime.
  assert (Hnone : get_active_attempt_if_any (request_profile request) quest_ None
                    (process_start request quest_ w)
                  = Some (mkQuestAttempt (new_attempt_pk w) quest_
                            (request_profile request) false 0)); [|by split].
  unfold get_active_attempt_if_any.
  rewrite process_start_attempts, filter_app, filter_cons, decide_True, filter_nil by done.
  apply OrmFacts.latest_by_fresh.
  intros b Hb%list_elem_of_filter. apply Hfresh. tauto.
Qed.

End QuestFacts.

Section WinThenQuery.

Variable DEBUG : bool.
Variable BASE_URL : string.
Variable profiles : gmap Z Profile.
Variable gitcoinbot : Profile.
Variable randint : nat -> Z.
Variable coupon_url : BulkTransferCoupon -> string.
Variable delivery_fails : Notification -> bool.
Variable activity_fails : Activity -> bool.
Variable now : World -> Z.
Variable is_beaten : World -> Quest -> Z -> bool.
Variable str_of_float : Q -> string.
Variable created_on_of : QuestAttempt -> Z.
Variable cooldown_minutes : Quest -> Z.

Local Abbreviation process_win :=
  (process_win DEBUG BASE_URL profiles gitcoinbot randint coupon_url
     delivery_fails activity_fails now is_beaten str_of_float).
Local Abbreviation get_active_attempt_if_any :=
  (get_active_attempt_if_any now created_on_of cooldown_minutes).

(** X16. After a win of a quest with a reward, returned or raised by the
    cascade, the attempt that was won is no longer an active attempt:
    whatever profile, quest and state are asked for, the attempt found, if
    any, has another primary key and was in the table before. *)
Theorem won_attempt_is_not_active request qa reward profile quest_ state_ w :
  kudos_reward (quest qa) = Some reward ->
  match get_active_attempt_if_any profile quest_ state_
          (world_of (process_win request qa w)) with
  | Some a => qa_pk a <> qa_pk qa /\ a ∈ attempts w
  | None => True
  end.
Proof.
  intros Hreward.
  destruct (active_attempts_filter now created_on_of cooldown_minutes profile
              quest_ state_ (world_of (process_win request qa w)))
    as (kept & -> & Hkept).
  destruct (Orm.latest_by qa_pk kept) as [a|] eqn:Ha; [|done].
  apply OrmFacts.latest_by_Some in Ha as [Hin _].
  apply Hkept in Hin as [Hin (_ & _ & Hfailed & _)].
  rewrite (process_win_attempts DEBUG BASE_URL profiles gitcoinbot randint
             coupon_url delivery_fails activity_fails now is_beaten str_of_float),
    Hreward in Hin.
  apply elem_of_app in Hin as [Hin|Hin].
  - apply list_elem_of_filter in Hin. tauto.
  - apply list_elem_of_singleton in Hin. subst a. done.
Qed.

End WinThenQuery.

(* ===================================================================== *)
(** ** More on the leaderboard *)
(* ===================================================================== *)

Section LeaderboardMore.

Variable Token_get : Z -> Token.
Variable quest_redemptions : string -> list Token.
Variable list_of_set : list (string * string) -> list (string * string).

Local Abbreviation this_ele := (this_ele Token_get quest_redemptions list_of_set).
Local Abbreviation rows := (rows Token_get quest_redemptions list_of_set).
Local Abbreviation generate_leaderboard :=
  (generate_leaderboard Token_get quest_redemptions list_of_set).

Lemma slice_to_length {A} (n : Z) (l : list A) :
  Z.of_nat (length (Py.slice_to n l))
  = if 0 <=? n then Z.min n (Z.of_nat (length l))
    else Z.max 0 (Z.of_nat (length l) + n).
Proof.
  unfold Py.slice_to. destruct (0 <=? n) eqn:E; rewrite length_take.
  - apply Z.leb_le in E. lia.
  - apply Z.leb_gt in E. lia.
Qed.

(** A row comes from an item of the ranking, at the place its counter
    tells. *)
Lemma rows_origin (awards : list QuestPointAward) (e : Entry) :
  e ∈ rows 0 (ranking awards) ->
  exists (i : nat) h v,
    ranking awards !! i = Some (h, v) /\ e = this_ele (Z.of_nat i + 1) (h, v).
Proof.
  intros [i Hi]%list_elem_of_lookup_1.
  rewrite rows_lookup in Hi.
  destruct (ranking awards !! i) as [[h v]|] eqn:Hr; simpl in Hi; [|discriminate].
  injection Hi as <-. by exists i, h, v.
Qed.

Lemma rows_handles (leaderboard : list (string * Q)) (counter : Z) :
  map e_handle (rows counter leaderboard) = map fst leaderboard.
Proof.
  revert counter. induction leaderboard as [|ele rest IH]; intros counter; [done |].
  simpl. by rewrite IH.
Qed.

(** The first list returned is a slice of the rows with the first two
    exchanged when there are three or more, the second is made of the first
    three rows. *)
Lemma returned_lists_slice (max_entries : Z) (ranked : list Entry) :
  exists swapped,
    fst (returned_lists max_entries ranked) = Py.slice_to max_entries swapped
    /\ swapped ≡ₚ ranked
    /\ length swapped = length ranked
    /\ (forall (i : nat), (2 <= i)%nat \/ (length ranked < 3)%nat ->
                          swapped !! i = ranked !! i)
    /\ ((3 <= length ranked)%nat ->
        swapped !! 0%nat = ranked !! 1%nat /\ swapped !! 1%nat = ranked !! 0%nat)
    /\ snd (returned_lists max_entries ranked)
       = if decide (length ranked < 3)%nat then [] else take 3 swapped.
Proof.
  unfold returned_lists.
  destruct ranked as [|r1 [|r2 [|r3 rest]]]; simpl.
  - exists []. split_and!; try done; simpl; lia.
  - exists [r1]. split_and!; try done; simpl; lia.
  - exists [r1; r2]. split_and!; try done; simpl; lia.
  - exists (r2 :: r1 :: r3 :: rest).
    split_and!; try done.
    + apply Permutation_swap.
    + intros [|[|i]] [?|?]; simpl in *; done || lia.
Qed.

Lemma generate_leaderboard_lists (awards : list QuestPointAward) (max_entries : Z) :
  exists full hero,
    generate_leaderboard awards max_entries = Some (full, hero)
    /\ full = fst (returned_lists max_entries (rows 0 (ranking awards)))
    /\ hero = snd (returned_lists max_entries (rows 0 (ranking awards))).
Proof.
  rewrite generate_leaderboard_returns. eexists _, _.
  split; [by rewrite <- surjective_pairing | done].
Qed.

(** X17. Every entry of the two lists is for a handle that has point
    awards, and the points it displays are the formatted sum of all the
    awards of this handle. *)
Theorem entries_show_totals (awards : list QuestPointAward) (max_entries : Z) :
  exists full hero,
    generate_leaderboard awards max_entries = Some (full, hero)
    /\ Forall (fun e => e_handle e ∈ contributors awards
                        /\ e_display_pts e
                           = display_pts (total_for (e_handle e) awards))
         (full ++ hero).
Proof.
  destruct (generate_leaderboard_lists awards max_entries) as (full & hero & Hg & -> & ->).
  eexists _, _. split; [exact Hg |].
  apply Forall_forall. intros e He.
  assert (Hrow : e ∈ rows 0 (ranking awards)).
  { apply elem_of_app in He.
    by apply (returned_lists_elem Token_get max_entries). }
  apply rows_origin in Hrow as (i & h & v & Hi & ->).
  apply list_elem_of_lookup_2, ranking_elem in Hi as [Hh ->]. done.
Qed.

(** X18. In both lists the entries of rank 1, 2 and 3 carry the reward
    tokens 621, 618 and 622; the other entries carry none. No entry lists
    more than five kudos. *)
Theorem entries_rewards_for_top3 (awards : list QuestPointAward) (max_entries : Z) :
  exists full hero,
    generate_leaderboard awards max_entries = Some (full, hero)
    /\ Forall (fun e =>
                 rank awards (e_handle e) = Some (e_counter e)
                 /\ e_reward_kudos_url e
                    = (if e_counter e =? 1 then Some (Token_get 621)
                       else if e_counter e =? 2 then Some (Token_get 618)
                       else if e_counter e =? 3 then Some (Token_get 622)
                       else None)
                 /\ (length (e_kudii e) <= 5)%nat)
         (full ++ hero).
Proof.
  destruct (generate_leaderboard_lists awards max_entries) as (full & hero & Hg & -> & ->).
  eexists _, _. split; [exact Hg |].
  apply Forall_forall. intros e He.
  assert (Hrow : e ∈ rows 0 (ranking awards)).
  { apply elem_of_app in He.
    by apply (returned_lists_elem Token_get max_entries). }
  split; [by apply (rows_elem Token_get quest_redemptions list_of_set) |].
  apply rows_origin in Hrow as (i & h & v & Hi & ->).
  simpl.
  unfold reward_kudos, kudos_to_show_per_leaderboard_entry.
  split.
  - destruct (Z.of_nat i + 1 =? 1); [done |].
    destruct (Z.of_nat i + 1 =? 2); [done |].
    by destruct (Z.of_nat i + 1 =? 3).
  - rewrite length_take. lia.
Qed.

Lemma ranking_handles_perm (awards : list QuestPointAward) :
  map fst (ranking awards) ≡ₚ contributors awards.
Proof.
  apply NoDup_Permutation;
    [apply ranking_handles_NoDup | apply NoDup_remove_dups |].
  intros h. rewrite list_elem_of_fmap. split.
  - intros ([h' v] & -> & Hin). by apply ranking_elem in Hin as [? _].
  - intros Hh. exists (h, total_for h awards). split; [done |].
    by apply ranking_elem.
Qed.

(** X19. No handle appears twice in the full list; every handle in it has
    point awards; and with a bound of at least the number of contributing
    handles the full list has each of them exactly once. *)
Theorem full_list_one_entry_per_handle (awards : list QuestPointAward) (max_entries : Z) :
  exists full hero,
    generate_leaderboard awards max_entries = Some (full, hero)
    /\ NoDup (map e_handle full)
    /\ (forall h, h ∈ map e_handle full -> h ∈ contributors awards)
    /\ (Z.of_nat (length (contributors awards)) <= max_entries ->
        map e_handle full ≡ₚ contributors awards).
Proof.
  destruct (generate_leaderboard_lists awards max_entries) as (full & hero & Hg & -> & _).
  destruct (returned_lists_slice max_entries (rows 0 (ranking awards)))
    as (swapped & Hfull & Hperm & Hlen & _).
  assert (Hhandles : map e_handle swapped ≡ₚ contributors awards).
  { rewrite Hperm. rewrite rows_handles. apply ranking_handles_perm. }
  exists (fst (returned_lists max_entries (rows 0 (ranking awards)))), hero.
  split; [exact Hg |]. rewrite Hfull.
  destruct (PyFacts.slice_to_prefix max_entries swapped) as [k Hk].
  assert (Htake : map e_handle (take k swapped) = take k (map e_handle swapped))
    by (symmetry; apply firstn_map).
  split_and!.
  - rewrite Hk, Htake.
    apply (sublist_NoDup _ (map e_handle swapped)); [|apply sublist_take].
    rewrite Hhandles. apply NoDup_remove_dups.
  - intros h Hh. rewrite <- Hhandles.
    rewrite Hk, Htake in Hh. by apply subseteq_take in Hh.
  - intros Hbound. rewrite PyFacts.slice_to_large; [done |].
    rewrite Hlen, rows_length, ranking_length. lia.
Qed.

(** X20. The length of the two lists, for every bound: a bound that is
    not negative cuts the full list to that many entries, a negative bound
    [-k] drops its last [k] entries; the hero list has three entries, or none
    when fewer than three handles have point awards. *)
Theorem returned_lists_lengths (awards : list QuestPointAward) (max_entries : Z) :
  exists full hero,
    generate_leaderboard awards max_entries = Some (full, hero)
    /\ Z.of_nat (length full)
       = (if 0 <=? max_entries
          then Z.min max_entries (Z.of_nat (length (contributors awards)))
          else Z.max 0 (Z.of_nat (length (contributors awards)) + max_entries))
    /\ length hero
       = if decide (length (contributors awards) < 3)%nat then 0%nat else 3%nat.
Proof.
  destruct (generate_leaderboard_lists awards max_entries) as (full & hero & Hg & -> & ->).
  destruct (returned_lists_slice max_entries (rows 0 (ranking awards)))
    as (swapped & Hfull & _ & Hlen & _ & _ & Hhero).
  rewrite rows_length, ranking_length in Hlen, Hhero.
  eexists _, _. split; [exact Hg |].
  rewrite Hfull, Hhero, slice_to_length, Hlen.
  split; [done |].
  case_decide; [done |]. rewrite length_take. lia.
Qed.

(** X21. The order of the full list: the entry at place [i] (from 0)
    carries the counter [i + 1], except that with three or more contributing
    handles the first two places carry the counters 2 and 1. *)
Theorem full_list_order (awards : list QuestPointAward) (max_entries : Z) :
  exists full hero,
    generate_leaderboard awards max_entries = Some (full, hero)
    /\ forall (i : nat) e,
        full !! i = Some e ->
        e_counter e
        = if decide (3 <= length (contributors awards))%nat
          then match i with
               | 0%nat => 2
               | 1%nat => 1
               | _ => Z.of_nat i + 1
               end
          else Z.of_nat i + 1.
Proof.
  destruct (generate_leaderboard_lists awards max_entries) as (full & hero & Hg & -> & _).
  destruct (returned_lists_slice max_entries (rows 0 (ranking awards)))
    as (swapped & Hfull & _ & _ & Hsame & Hswap & _).
  rewrite rows_length, ranking_length in Hsame, Hswap.
  eexists _, hero. split; [exact Hg |].
  intros i e. rewrite Hfull.
  destruct (PyFacts.slice_to_prefix max_entries swapped) as [k ->].
  intros Hi%lookup_take_Some. destruct Hi as [Hi _].
  assert (Hrow : forall (j : nat), rows 0 (ranking awards) !! j = Some e ->
                                   e_counter e = Z.of_nat j + 1).
  { intros j Hj. rewrite rows_lookup in Hj.
    destruct (ranking awards !! j) as [ele|]; simpl in Hj; [|discriminate].
    injection Hj as <-. simpl. lia. }
  destruct (decide (3 <= length (contributors awards))%nat) as [Hn|Hn].
  - destruct (Hswap Hn) as [H0 H1].
    destruct i as [|[|i]].
    + rewrite H0 in Hi. by rewrite (Hrow 1%nat Hi).
    + rewrite H1 in Hi. by rewrite (Hrow 0%nat Hi).
    + rewrite Hsame in Hi by (left; lia). by apply Hrow.
  - rewrite Hsame in Hi by (right; lia). by apply Hrow.
Qed.

(** What the rank of a handle says about the ranking. *)
Lemma rank_Some (awards : list QuestPointAward) (h : string) (r : Z) :
  rank awards h = Some r <->
  1 <= r /\ ranking awards !! Z.to_nat (r - 1) = Some (h, total_for h awards).
Proof.
  unfold rank. split.
  - destruct (list_find _ _) as [[i [h' v]]|] eqn:Hf; simpl; [|done].
    intros [= <-]. apply list_find_Some in Hf as (Hi & Hh & _). simpl in Hh. subst h'.
    split; [lia |].
    replace (Z.to_nat (Z.of_nat i + 1 - 1)) with i by lia.
    apply list_elem_of_lookup_2 in Hi as Hin. apply ranking_elem in Hin as [_ ->].
    done.
  - intros [Hr Hi]. fold (rank awards h).
    rewrite (rank_lookup awards _ h _ Hi). f_equal. lia.
Qed.

(** X22. Exactly the handles with point awards have a rank; the ranks run
    from 1 to the number of these handles, and two handles never share
    one. *)
Theorem every_contributor_has_one_rank (awards : list QuestPointAward) (h : string) :
  (h ∈ contributors awards <-> exists r, rank awards h = Some r)
  /\ (forall r, rank awards h = Some r ->
                1 <= r <= Z.of_nat (length (contributors awards)))
  /\ (forall r h', rank awards h = Some r -> rank awards h' = Some r -> h = h').
Proof.
  clear Token_get quest_redemptions list_of_set.
  split_and!.
  - split.
    + intros Hh.
      assert (Hin : (h, total_for h awards) ∈ ranking awards) by (by apply ranking_elem).
      apply list_elem_of_lookup_1 in Hin as [i Hi].
      eexists. by apply (rank_lookup awards i h _ Hi).
    + intros [r [_ Hi]%rank_Some].
      apply list_elem_of_lookup_2, ranking_elem in Hi. tauto.
  - intros r [Hr Hi]%rank_Some. apply lookup_lt_Some in Hi.
    rewrite ranking_length in Hi. lia.
  - intros r h' [_ Hi]%rank_Some [_ Hi']%rank_Some. congruence.
Qed.

(** X23. Of two handles the one with the better rank has a total that is
    not smaller. *)
Theorem better_rank_not_smaller_total (awards : list QuestPointAward)
    (h1 h2 : string) (r1 r2 : Z) :
  rank awards h1 = Some r1 -> rank awards h2 = Some r2 -> r1 < r2 ->
  (total_for h2 awards <= total_for h1 awards)%Q.
Proof.
  intros [Hr1 Hi1]%rank_Some [Hr2 Hi2]%rank_Some Hlt.
  apply (rank_descending awards _ _ _ _ Hi1 Hi2). lia.
Qed.

(** X24. How ties are broken: the handles with one and the same total
    stand in the ranking in the order of their first point award in the
    table. *)
Theorem ties_keep_first_award_order (awards : list QuestPointAward) (v : Q) :
  map fst (filter (fun ele => Qeq_bool (snd ele) v = true) (ranking awards))
  = map fst (filter (fun ele => Qeq_bool (snd ele) v = true) (totals awards))
  /\ map fst (totals awards)
     = reverse (remove_dups
                  (reverse (map (fun qpa => handle (qpa_profile qpa)) awards))).
Proof.
  split; [|apply totals_keys_order].
  unfold ranking. by rewrite PyFacts.sorted_desc_stable.
Qed.

End LeaderboardMore.

(* ===================================================================== *)
(** ** More properties on concrete data *)
(* ===================================================================== *)

Section OnMoreExamples.

Import Examples MoreExamples.

Lemma cascade_returns_when_delivered_witness :
  (forall n, delivers n = false)
  /\ exists w' awarded,
      cascade_on_cycle (attempt 8 ann) ann 1 empty_world = Returned tt w'
      /\ follows cycle ann awarded
      /\ point_awards w'
         = point_awards empty_world ++ cascade_awards (attempt 8 ann) awarded 1
      /\ (length awarded = 4%nat
          \/ exists q, last awarded = Some q /\ referrer_of cycle q = None).
Proof.
  split; [reflexivity |].
  apply (cascade_returns_when_delivered false cycle bot draw url_of delivers str_of
           (attempt 8 ann) ann empty_world).
  reflexivity.
Defined.

Lemma cascade_sum_bounded_witness :
  (0 <= value (quest (attempt 8 winner)))%Q
  /\ exists created,
      point_awards (world_of (cascade_undelivered (attempt 8 winner) winner 1 empty_world))
      = point_awards empty_world ++ created
      /\ (sum_values created <= (15 # 8) * value (quest (attempt 8 winner)))%Q.
Proof.
  split; [vm_compute; discriminate |].
  apply (cascade_sum_bounded false table bot draw url_of never_delivers str_of
           (attempt 8 winner) winner empty_world).
  vm_compute. discriminate.
Defined.

Lemma repeat_wins_are_idempotent_witness :
  kudos_reward (quest failed_attempt) = Some kudos_token
  /\ beaten empty_world (quest failed_attempt) (request_user a_request) = true
  /\ beaten (world_of (win a_request failed_attempt empty_world))
       (quest failed_attempt) (request_user a_request) = true
  /\ exists prize_url w1 w2,
      win a_request failed_attempt empty_world = Returned prize_url w1
      /\ win a_request failed_attempt w1 = Returned prize_url w2
      /\ point_awards w1 = point_awards empty_world
      /\ coupons w2 = coupons w1
      /\ point_awards w2 = point_awards w1
      /\ notifications w2 = notifications w1
      /\ attempts w2 = attempts w1.
Proof.
  split; [reflexivity |]. split; [reflexivity |]. split; [reflexivity |].
  apply (repeat_wins_are_idempotent false ""%string table bot draw url_of delivers
           activity_ok clock beaten str_of a_request failed_attempt kudos_token
           empty_world);
    reflexivity.
Defined.

Lemma win_cascades_only_first_time_witness :
  kudos_reward (quest failed_attempt) = Some kudos_token
  /\ exists prize_url w1,
      point_awards w1 = point_awards world_with_attempt
      /\ attempts w1
         = filter (fun a => qa_pk a <> qa_pk failed_attempt)
             (attempts world_with_attempt)
           ++ [mkQuestAttempt (qa_pk failed_attempt) (quest failed_attempt)
                 (qa_profile failed_attempt) true (state failed_attempt)]
      /\ if never_beaten world_with_attempt (quest failed_attempt)
              (request_user a_request)
         then first_win a_request failed_attempt world_with_attempt
              = Returned prize_url w1
         else first_win a_request failed_attempt world_with_attempt
              = match cascade
                        (mkQuestAttempt (qa_pk failed_attempt) (quest failed_attempt)
                           (qa_profile failed_attempt) true (state failed_attempt))
                        (qa_profile failed_attempt) 1 w1 with
                | Returned _ w' => Returned prize_url w'
                | Raised e w' => Raised e w'
                end
              /\ exists later,
                  point_awards
                    (world_of (first_win a_request failed_attempt world_with_attempt))
                  = point_awards world_with_attempt
                    ++ mkQuestPointAward
                         (mkQuestAttempt (qa_pk failed_attempt) (quest failed_attempt)
                            (qa_profile failed_attempt) true (state failed_attempt))
                         (qa_profile failed_attempt)
                         (layer_value
                            (mkQuestAttempt (qa_pk failed_attempt)
                               (quest failed_attempt) (qa_profile failed_attempt)
                               true (state failed_attempt)) 1)
                       :: later.
Proof.
  split; [reflexivity |].
  apply (win_cascades_only_first_time false ""%string table bot draw url_of
           delivers activity_ok clock never_beaten str_of a_request failed_attempt
           kudos_token world_with_attempt).
  reflexivity.
Defined.

Lemma won_attempt_is_not_active_witness :
  kudos_reward (quest second_attempt) = Some kudos_token
  /\ match active winner (a_quest 8) None
            (world_of (win a_request second_attempt world_with_two_attempts)) with
     | Some a => qa_pk a <> qa_pk second_attempt
                 /\ a ∈ attempts world_with_two_attempts
     | None => True
     end.
Proof.
  split; [reflexivity |].
  apply (won_attempt_is_not_active false ""%string table bot draw url_of delivers
           activity_ok clock beaten str_of just_created cooldown a_request
           second_attempt kudos_token winner (a_quest 8) None
           world_with_two_attempts).
  reflexivity.
Defined.

Lemma get_leaderboard_after_write_witness :
  (forall s, s ∈ a_store -> js_pk s < 2)
  /\ get_leaderboard
       (a_store ++ [mkJSONStore 2 "quests"%string "leaderboard"%string 9]) 25
     = Some 9.
Proof.
  assert (Hfresh : forall s, s ∈ a_store -> js_pk s < 2).
  { intros s Hs. unfold a_store in Hs. apply list_elem_of_singleton in Hs.
    subst s. simpl. lia. }
  split; [exact Hfresh |].
  apply (get_leaderboard_after_write a_store 2 9 25). exact Hfresh.
Defined.

Lemma started_attempt_is_active_witness :
  (forall a, a ∈ attempts world_with_attempt -> qa_pk a < next_pk world_with_attempt)
  /\ clock (start a_request (a_quest 8) world_with_attempt)
     - timedelta_minutes (cooldown (a_quest 8))
     < just_created
         (mkQuestAttempt (next_pk world_with_attempt) (a_quest 8)
            (request_profile a_request) false 0)
  /\ active (request_profile a_request) (a_quest 8) None
       (start a_request (a_quest 8) world_with_attempt)
     = Some (mkQuestAttempt (next_pk world_with_attempt) (a_quest 8)
               (request_profile a_request) false 0)
  /\ active (request_profile a_request) (a_quest 8) (Some 0)
       (start a_request (a_quest 8) world_with_attempt)
     = Some (mkQuestAttempt (next_pk world_with_attempt) (a_quest 8)
               (request_profile a_request) false 0).
Proof.
  assert (Hfresh : forall a, a ∈ attempts world_with_attempt ->
                             qa_pk a < next_pk world_with_attempt).
  { intros a Ha. unfold world_with_attempt in Ha. simpl in Ha.
    apply list_elem_of_singleton in Ha. subst a. vm_compute. reflexivity. }
  assert (Htime : clock (start a_request (a_quest 8) world_with_attempt)
                  - timedelta_minutes (cooldown (a_quest 8))
                  < just_created
                      (mkQuestAttempt (next_pk world_with_attempt) (a_quest 8)
                         (request_profile a_request) false 0)).
  { vm_compute. reflexivity. }
  split; [exact Hfresh |]. split; [exact Htime |].
  exact (started_attempt_is_active clock activity_ok just_created cooldown next_pk
           a_request (a_quest 8) world_with_attempt Hfresh Htime).
Defined.

Lemma better_rank_not_smaller_total_witness :
  rank board "A" = Some 1 /\ rank board "B" = Some 2 /\ 1 < 2
  /\ (total_for "B" board <= total_for "A" board)%Q.
Proof.
  split; [reflexivity |]. split; [reflexivity |]. split; [lia |].
  apply (better_rank_not_smaller_total board "A" "B" 1 2); [reflexivity .. | lia].
Defined.

End OnMoreExamples.
